(** * Blue/green deployment log watcher: a shallow embedding of
    [watcher/watcher.py] and the properties of its detection engine.

    The development follows the layout of the source file:
    - [Regex]: the seven [re.search] patterns of [parse_log_line], written
      out as matchers over ASCII text;
    - [parse_log_line]: the event parser, with the exceptions that Python's
      [float] raises;
    - [Watcher]: the global state ([last_pool], [request_window],
      [last_alert_time]), the clock and the webhook as an environment, and
      the functions [send_slack_alert], [detect_failover],
      [check_error_rate] and the body of the loop of [main];
    - the loop of [tail_log_file] as a function of the results of
      [readline].

    Modelling conventions.
    - Python [int] is [Z]; Python [float] in [check_error_rate] is the
      kernel's binary64 ([PrimFloat]), so rounding is the machine's.
    - Text is ASCII: the classes [\d], [\w] and [\s] are the ASCII parts of
      Python's classes.
    - [datetime.now()] is a number of microseconds; the elapsed time of the
      cooldown is compared exactly.
    - [int] of a run of digits is taken without the interpreter's optional
      limit on the number of digits. *)

From Stdlib Require Import ZArith Ascii String List Bool Lia.
From Stdlib Require Import Floats.PrimFloat Numbers.Cyclic.Int63.Uint63.
From stdpp Require Import base option list gmap strings.

Local Open Scope Z_scope.

(** ** Exceptions *)

Inductive exn : Type :=
| ValueError
| ZeroDivisionError.

Inductive result (A : Type) : Type :=
| Ok (a : A)
| Raise (e : exn).

Arguments Ok {A} a.
Arguments Raise {A} e.

Definition rbind {A B : Type} (r : result A) (k : A -> result B) : result B :=
  match r with
  | Ok a => k a
  | Raise e => Raise e
  end.

(** ** Characters and the pieces of the regular expressions *)

Module Regex.

Definition code (c : ascii) : N := N_of_ascii c.

Definition in_range (lo hi : N) (c : ascii) : bool :=
  ((lo <=? code c) && (code c <=? hi))%N.

(** [\d] *)
Definition is_digit (c : ascii) : bool := in_range 48 57 c.

(** [\w]: letters, digits and the underscore *)
Definition is_word (c : ascii) : bool :=
  is_digit c || in_range 65 90 c || in_range 97 122 c || (code c =? 95)%N.

(** [\s]: tab to carriage return, the four separators 28..31, space *)
Definition is_space (c : ascii) : bool :=
  in_range 9 13 c || in_range 28 31 c || (code c =? 32)%N.

Definition is_dot (c : ascii) : bool := (code c =? 46)%N.
Definition is_dash (c : ascii) : bool := (code c =? 45)%N.
Definition is_colon (c : ascii) : bool := (code c =? 58)%N.
Definition is_dquote (c : ascii) : bool := (code c =? 34)%N.

(** [[\w\-\.]] *)
Definition is_release_char (c : ascii) : bool :=
  is_word c || is_dash c || is_dot c.

(** [[\d\.:]] *)
Definition is_addr_char (c : ascii) : bool :=
  is_digit c || is_dot c || is_colon c.

(** [[\d\.]] *)
Definition is_time_char (c : ascii) : bool := is_digit c || is_dot c.

(** The longest prefix of [s] in the class [p], and what follows it:
    what a greedy [p+] or [p*] consumes when nothing after it can take a
    character of the class back. *)
Fixpoint span (p : ascii -> bool) (s : string) : string * string :=
  match s with
  | EmptyString => (EmptyString, EmptyString)
  | String c rest =>
      if p c then let '(run, tl) := span p rest in (String c run, tl)
      else (EmptyString, s)
  end.

(** [strip_prefix key s] is the rest of [s] after the literal [key]. *)
Fixpoint strip_prefix (key s : string) : option string :=
  match key with
  | EmptyString => Some s
  | String k key' =>
      match s with
      | EmptyString => None
      | String c rest =>
          if Ascii.eqb k c then strip_prefix key' rest else None
      end
  end.

(** [re.match] of [key(cls+)] at the start of [s]: group 1. *)
Definition match_key (key : string) (cls : ascii -> bool) (s : string)
  : option string :=
  match strip_prefix key s with
  | None => None
  | Some rest =>
      match fst (span cls rest) with
      | EmptyString => None
      | run => Some run
      end
  end.

(** [re.match] of the status pattern at the start of [s]: a double quote,
    [\s+], the group [(\d{3})], then [\s+]. The result is group 1. *)
Definition match_status (s : string) : option string :=
  match s with
  | String q rest =>
      if is_dquote q then
        match span is_space rest with
        | (String _ _, String a (String b (String c (String d _)))) =>
            if is_digit a && is_digit b && is_digit c && is_space d
            then Some (String a (String b (String c EmptyString)))
            else None
        | _ => None
        end
      else None
  | EmptyString => None
  end.

(** [re.search]: the match at the leftmost position that has one. *)
Fixpoint search {A : Type} (m : string -> option A) (s : string) : option A :=
  match m s with
  | Some r => Some r
  | None =>
      match s with
      | EmptyString => None
      | String _ rest => search m rest
      end
  end.

End Regex.

(** ** Numeric conversions *)

Definition digit_value (c : ascii) : Z := Z.of_N (Regex.code c) - 48.

(** [int(s)] for a run of decimal digits. *)
Definition py_int (s : string) : Z :=
  fold_left (fun acc c => 10 * acc + digit_value c) (list_ascii_of_string s) 0.

(** The value of a decimal literal: [mantissa * 10^(-scale)]. Python rounds
    it to the nearest binary64; nothing in the watcher reads the two
    durations again, so the exact value is kept. *)
Record decimal : Type := { mantissa : Z; scale : nat }.

(** [float(s)] for the strings that [[\d\.]+] matches: digits with at most
    one dot and at least one digit are a literal, everything else raises
    [ValueError]. *)
Definition py_float (s : string) : result decimal :=
  let '(int_part, tl) := Regex.span Regex.is_digit s in
  match tl with
  | EmptyString =>
      match int_part with
      | EmptyString => Raise ValueError
      | _ => Ok {| mantissa := py_int int_part; scale := 0 |}
      end
  | String c tl' =>
      if Regex.is_dot c then
        let '(frac_part, tl'') := Regex.span Regex.is_digit tl' in
        match tl'', (int_part ++ frac_part)%string with
        | EmptyString, String _ _ =>
            Ok {| mantissa := py_int (int_part ++ frac_part);
                  scale := String.length frac_part |}
        | _, _ => Raise ValueError
        end
      else Raise ValueError
  end.

(** ** The event parser *)

(** The dictionary [data] built by [parse_log_line]; its keys are fixed. *)
Record RequestEvent : Type := {
  pool : option string;
  release : option string;
  upstream_status : option Z;
  upstream : option string;
  request_time : option decimal;
  upstream_time : option decimal;
  status : option Z
}.

(** [float(match.group(1))] under [if match:]. *)
Definition float_field (m : option string) : result (option decimal) :=
  match m with
  | None => Ok None
  | Some g => rbind (py_float g) (fun d => Ok (Some d))
  end.

Definition parse_log_line (line : string) : result RequestEvent :=
  let pool_m := Regex.search (Regex.match_key "pool=" Regex.is_word) line in
  let release_m :=
    Regex.search (Regex.match_key "release=" Regex.is_release_char) line in
  let upstream_status_m :=
    Regex.search (Regex.match_key "upstream_status=" Regex.is_digit) line in
  let upstream_m :=
    Regex.search (Regex.match_key "upstream=" Regex.is_addr_char) line in
  rbind (float_field
           (Regex.search (Regex.match_key "request_time=" Regex.is_time_char) line))
    (fun request_time_v =>
  rbind (float_field
           (Regex.search (Regex.match_key "upstream_time=" Regex.is_time_char) line))
    (fun upstream_time_v =>
  let status_m := Regex.search Regex.match_status line in
  Ok {| pool := pool_m;
        release := release_m;
        upstream_status := py_int <$> upstream_status_m;
        upstream := upstream_m;
        request_time := request_time_v;
        upstream_time := upstream_time_v;
        status := py_int <$> status_m |})).

(** The example line of the docstring of [parse_log_line]. *)
Definition dq : string := String (ascii_of_nat 34) EmptyString.

Definition example_line : string :=
  ("192.168.1.1 - " ++ dq ++ "GET /version HTTP/1.1" ++ dq ++
   " 200 pool=blue release=blue-v1.0.0 upstream_status=200 " ++
   "upstream=172.18.0.2:3000 request_time=0.045 upstream_time=0.032")%string.


(** ** Configuration, environment and state *)

(** The module-level constants read from the environment variables. *)
Record Config : Type := {
  SLACK_WEBHOOK_URL : option string;
  ERROR_RATE_THRESHOLD : float;
  WINDOW_SIZE : Z;
  ALERT_COOLDOWN_SEC : Z;
  MAINTENANCE_MODE : bool
}.

(** What [requests.post] does: it returns a response with a status code, or
    raises (timeout, connection error). *)
Inductive post_outcome : Type :=
| Response (status_code : Z)
| PostRaises.

(** The world outside the process: the value of the [k]-th reading of
    [datetime.now()], in microseconds, and the outcome of the [k]-th call of
    [requests.post]. *)
Record Env : Type := {
  clock : nat -> Z;
  webhook : nat -> post_outcome
}.

(** The text of an alert is determined by the values formatted into it. *)
Inductive message : Type :=
| FailoverMsg (from to : string) (time : Z)
| ErrorRateMsg (error_rate threshold : float) (error_count window_size : Z)
               (time : Z).

(** The lines written by [print], one constructor per call site. *)
Inductive printed : Type :=
| PBaseline (current_pool : string)
| PAlert (m : message)
| PMaintenance (alert_type : string)
| PNotConfigured
| PCooldown (remaining : Z)
| PSent (alert_type : string)
| PHttpFailed (status_code : Z)
| PSendError
| PStats (count : Z) (current_pool : option string) (error_rate : float)
| PFatal (e : exn).

(** The globals [last_pool], [request_window] and [last_alert_time], the
    local [request_count] of [main], and the trace of what the process did
    to the world: the clock readings taken, the payloads posted and the
    lines printed, oldest first. *)
Record State : Type := {
  last_pool : option string;
  request_window : list Z;
  last_alert_time : gmap string Z;
  request_count : Z;
  clock_reads : nat;
  posted : list message;
  output : list printed
}.

Definition set_last_pool (p : option string) (s : State) : State :=
  {| last_pool := p; request_window := request_window s;
     last_alert_time := last_alert_time s; request_count := request_count s;
     clock_reads := clock_reads s; posted := posted s; output := output s |}.

Definition set_request_window (w : list Z) (s : State) : State :=
  {| last_pool := last_pool s; request_window := w;
     last_alert_time := last_alert_time s; request_count := request_count s;
     clock_reads := clock_reads s; posted := posted s; output := output s |}.

Definition set_last_alert_time (t : gmap string Z) (s : State) : State :=
  {| last_pool := last_pool s; request_window := request_window s;
     last_alert_time := t; request_count := request_count s;
     clock_reads := clock_reads s; posted := posted s; output := output s |}.

Definition set_request_count (n : Z) (s : State) : State :=
  {| last_pool := last_pool s; request_window := request_window s;
     last_alert_time := last_alert_time s; request_count := n;
     clock_reads := clock_reads s; posted := posted s; output := output s |}.

Definition print (p : printed) (s : State) : State :=
  {| last_pool := last_pool s; request_window := request_window s;
     last_alert_time := last_alert_time s; request_count := request_count s;
     clock_reads := clock_reads s; posted := posted s;
     output := output s ++ [p] |}.

(** Python truthiness of a value that is [None] or a string, and of one that
    is [None] or an integer. *)
Definition truthy_str (o : option string) : bool :=
  match o with
  | Some (String _ _) => true
  | _ => false
  end.

Definition truthy_int (o : option Z) : bool :=
  match o with
  | Some n => negb (n =? 0)
  | None => false
  end.

(** [deque(maxlen=...)]: [append] adds on the right and, when the length
    then exceeds [maxlen], drops the leftmost entry. *)
Definition deque_append (maxlen : Z) (x : Z) (d : list Z) : list Z :=
  let d' := d ++ [x] in
  if maxlen <? Z.of_nat (length d') then tail d' else d'.

(** [sum(1 for status in request_window if status and status >= 500)] *)
Definition count_5xx (w : list Z) : Z :=
  Z.of_nat (length (filter (fun st => negb (st =? 0) && (500 <=? st)) w)).

(** Conversion of a Python integer to binary64, exact below [2^53]. *)
Definition float_of_int (n : Z) : float :=
  if n <? 0 then PrimFloat.opp (PrimFloat.of_uint63 (Uint63.of_Z (- n)))
  else PrimFloat.of_uint63 (Uint63.of_Z n).

(** [(error_count / size) * 100] in binary64. *)
Definition error_rate_of (error_count size : Z) : float :=
  PrimFloat.mul (PrimFloat.div (float_of_int error_count) (float_of_int size))
                (float_of_int 100).

Definition microseconds : Z := 1000000.

(** How a function of the watcher ends: it returns, or an exception leaves
    it; either way the state reached is kept. *)
Inductive run : Type :=
| Returned (s : State)
| Raised (e : exn) (s : State).

Definition final (r : run) : State :=
  match r with
  | Returned s => s
  | Raised _ s => s
  end.

(** The state at process start (module level, lines 22-25, and the local of
    [main]). [deque] refuses a negative [maxlen]. *)
Definition initial_state : State :=
  {| last_pool := None; request_window := []; last_alert_time := ∅;
     request_count := 0; clock_reads := 0; posted := []; output := [] |}.

Definition startup (cfg : Config) : run :=
  if WINDOW_SIZE cfg <? 0 then Raised ValueError initial_state
  else Returned initial_state.

Section Watcher.

Variable cfg : Config.
Variable env : Env.

(** [datetime.now()] *)
Definition now (s : State) : Z * State :=
  (clock env (clock_reads s),
   {| last_pool := last_pool s; request_window := request_window s;
      last_alert_time := last_alert_time s; request_count := request_count s;
      clock_reads := S (clock_reads s); posted := posted s;
      output := output s |}).

(** [requests.post(SLACK_WEBHOOK_URL, json={'text': message}, timeout=10)] *)
Definition post (m : message) (s : State) : post_outcome * State :=
  (webhook env (length (posted s)),
   {| last_pool := last_pool s; request_window := request_window s;
      last_alert_time := last_alert_time s; request_count := request_count s;
      clock_reads := clock_reads s; posted := posted s ++ [m];
      output := output s |}).

(** The [try] block of [send_slack_alert], lines 195-209. *)
Definition try_post (t : Z) (cooldown_key : string) (m : message) (s : State)
  : State :=
  let '(response, s1) := post m s in
  match response with
  | Response status_code =>
      if status_code =? 200 then
        set_last_alert_time (<[cooldown_key := t]> (last_alert_time s1))
                            (print (PSent cooldown_key) s1)
      else print (PHttpFailed status_code) s1
  | PostRaises => print PSendError s1
  end.

Definition send_slack_alert (m : message) (alert_type : string) (s : State)
  : State :=
  if MAINTENANCE_MODE cfg then print (PMaintenance alert_type) s
  else if negb (truthy_str (SLACK_WEBHOOK_URL cfg)) then print PNotConfigured s
  else
    let '(t, s1) := now s in
    let cooldown_key := alert_type in
    match last_alert_time s1 !! cooldown_key with
    | Some last =>
        let elapsed := t - last in
        if elapsed <? ALERT_COOLDOWN_SEC cfg * microseconds then
          print (PCooldown (ALERT_COOLDOWN_SEC cfg * microseconds - elapsed)) s1
        else try_post t cooldown_key m s1
    | None => try_post t cooldown_key m s1
    end.

Definition detect_failover (current_pool : option string) (s : State) : State :=
  match current_pool with
  | Some (String c rest) =>
      let current := String c rest in
      match last_pool s with
      | None => print (PBaseline current) (set_last_pool (Some current) s)
      | Some previous =>
          if negb (String.eqb current previous) then
            let '(t, s1) := now s in
            let m := FailoverMsg previous current t in
            let s2 := print (PAlert m) s1 in
            let s3 := send_slack_alert m "failover" s2 in
            set_last_pool (Some current) s3
          else s
      end
  | _ => s
  end.

Definition check_error_rate (s : State) : run :=
  if Z.of_nat (length (request_window s)) <? WINDOW_SIZE cfg then Returned s
  else
    let error_count := count_5xx (request_window s) in
    if WINDOW_SIZE cfg =? 0 then Raised ZeroDivisionError s
    else
      let error_rate := error_rate_of error_count (WINDOW_SIZE cfg) in
      if PrimFloat.ltb (ERROR_RATE_THRESHOLD cfg) error_rate then
        let '(t, s1) := now s in
        let m := ErrorRateMsg error_rate (ERROR_RATE_THRESHOLD cfg)
                              error_count (WINDOW_SIZE cfg) t in
        let s2 := print (PAlert m) s1 in
        Returned (send_slack_alert m "error_rate" s2)
      else Returned s.

(** *** The body of the loop of [main] *)

(** Lines 226-228. *)
Definition track_request (data : RequestEvent) (s : State) : State :=
  if truthy_int (upstream_status data) then
    match upstream_status data with
    | Some st =>
        set_request_count (request_count s + 1)
          (set_request_window
             (deque_append (WINDOW_SIZE cfg) st (request_window s)) s)
    | None => s
    end
  else s.

(** Lines 231-232. *)
Definition track_pool (data : RequestEvent) (s : State) : State :=
  if truthy_str (pool data) then detect_failover (pool data) s else s.

(** Lines 235-236. *)
Definition track_error_rate (s : State) : run :=
  if WINDOW_SIZE cfg <=? request_count s then check_error_rate s
  else Returned s.

(** Lines 239-244. *)
Definition debug_output (data : RequestEvent) (s : State) : State :=
  if request_count s mod 50 =? 0 then
    let error_count := count_5xx (request_window s) in
    let error_rate :=
      match request_window s with
      | [] => float_of_int 0
      | _ => error_rate_of error_count (Z.of_nat (length (request_window s)))
      end in
    print (PStats (request_count s) (pool data) error_rate) s
  else s.

(** One iteration: lines 223-244. *)
Definition main_step (line : string) (s : State) : run :=
  match parse_log_line line with
  | Raise e => Raised e s
  | Ok data =>
      let s1 := track_request data s in
      let s2 := track_pool data s1 in
      match track_error_rate s2 with
      | Raised e s3 => Raised e s3
      | Returned s3 => Returned (debug_output data s3)
      end
  end.

(** The loop over the lines that the log has yielded so far, and the
    handler of line 248, which prints and raises again. *)
Fixpoint main_loop (lines : list string) (s : State) : run :=
  match lines with
  | [] => Returned s
  | line :: rest =>
      match main_step line s with
      | Returned s' => main_loop rest s'
      | Raised e s' => Raised e (print (PFatal e) s')
      end
  end.

End Watcher.

(** ** Definitions used to state the properties *)

(** An event of the running system: a value returned by the parser. *)
Definition parsed (data : RequestEvent) : Prop :=
  exists line : string, parse_log_line line = Ok data.

(** The window after appending the codes [xs], oldest first, to an empty
    [deque(maxlen=capacity)]. *)
Definition appends (capacity : Z) (xs : list Z) : list Z :=
  fold_left (fun d x => deque_append capacity x d) xs [].

(** The failover alerts raised, read off the printed lines: line 139 is
    printed once for each call of [send_slack_alert] in [detect_failover]. *)
Definition failover_of (p : printed) : option (string * string) :=
  match p with
  | PAlert (FailoverMsg from to _) => Some (from, to)
  | _ => None
  end.

Definition failover_alerts (out : list printed) : list (string * string) :=
  omap failover_of out.

(** A window of [ok] responses with status 200 followed by [err] responses
    with status 500. *)
Definition window_of (ok err : nat) : list Z := repeat 200 ok ++ repeat 500 err.

(** The configuration with the defaults of lines 15-19 and a webhook. *)
Definition default_cfg : Config :=
  {| SLACK_WEBHOOK_URL := Some "http://hooks.example/T000";
     ERROR_RATE_THRESHOLD := float_of_int 2;
     WINDOW_SIZE := 200;
     ALERT_COOLDOWN_SEC := 300;
     MAINTENANCE_MODE := false |}.

(** The same with maintenance mode on and no webhook. *)
Definition maintenance_cfg : Config :=
  {| SLACK_WEBHOOK_URL := None;
     ERROR_RATE_THRESHOLD := float_of_int 2;
     WINDOW_SIZE := 200;
     ALERT_COOLDOWN_SEC := 300;
     MAINTENANCE_MODE := true |}.

Definition with_window (size : Z) (threshold : float) (c : Config) : Config :=
  {| SLACK_WEBHOOK_URL := SLACK_WEBHOOK_URL c;
     ERROR_RATE_THRESHOLD := threshold;
     WINDOW_SIZE := size;
     ALERT_COOLDOWN_SEC := ALERT_COOLDOWN_SEC c;
     MAINTENANCE_MODE := MAINTENANCE_MODE c |}.

(** A webhook that always answers 200 and one that always answers 500; a
    clock that advances by [step] seconds at each reading. *)
Definition env_ok (step : Z) : Env :=
  {| clock := fun k => Z.of_nat k * step * microseconds;
     webhook := fun _ => Response 200 |}.

Definition env_down (step : Z) : Env :=
  {| clock := fun k => Z.of_nat k * step * microseconds;
     webhook := fun _ => Response 500 |}.

(** The test of lines 187-189 at time [t]: the key is in the table and the
    elapsed time is below the cooldown. *)
Definition in_cooldown (cfg : Config) (t : Z) (key : string) (s : State) : bool :=
  match last_alert_time s !! key with
  | Some last => t - last <? ALERT_COOLDOWN_SEC cfg * microseconds
  | None => false
  end.

(** The state after [datetime.now()] has been read once. *)
Definition now_state (env : Env) (s : State) : State := snd (now env s).

(** The alert that [check_error_rate] builds in state [s], lines 159-163. *)
Definition error_rate_message (cfg : Config) (env : Env) (s : State) : message :=
  ErrorRateMsg
    (error_rate_of (count_5xx (request_window s)) (WINDOW_SIZE cfg))
    (ERROR_RATE_THRESHOLD cfg)
    (count_5xx (request_window s)) (WINDOW_SIZE cfg)
    (clock env (clock_reads s)).

(** A state whose window holds [w], as after [length w] tracked requests. *)
Definition window_state (w : list Z) : State :=
  set_request_count (Z.of_nat (length w)) (set_request_window w initial_state).

(** An event that carries a pool label and nothing else. *)
Definition event_with_pool (p : string) : RequestEvent :=
  {| pool := Some p; release := None; upstream_status := None;
     upstream := None; request_time := None; upstream_time := None;
     status := None |}.

(** ** Definitions for the further properties *)

(** Every character of [s] is in the class [p]; the first character of [s]
    is in the class [p]; the number of characters of [s] in [p]. *)
Fixpoint all_chars (p : ascii -> bool) (s : string) : bool :=
  match s with
  | EmptyString => true
  | String c rest => p c && all_chars p rest
  end.

Definition head_in (p : ascii -> bool) (s : string) : bool :=
  match s with
  | EmptyString => false
  | String c _ => p c
  end.




(** The changes of pool along the labels [ps], starting from the pool [p]:
    the pairs (from, to) of consecutive different labels. *)
Fixpoint changes (p : string) (ps : list string) : list (string * string) :=
  match ps with
  | [] => []
  | q :: rest =>
      if String.eqb q p then changes p rest else (p, q) :: changes q rest
  end.

(** [detect_failover] called with each label of [ps] in turn. *)
Definition feed_pools (cfg : Config) (env : Env) (ps : list string) (s : State)
  : State :=
  fold_left (fun st q => detect_failover cfg env (Some q) st) ps s.

(** The window length follows the request counter up to the capacity. *)
Definition counted (cfg : Config) (s : State) : Prop :=
  0 <= request_count s /\
  Z.of_nat (length (request_window s)) =
    Z.min (request_count s) (WINDOW_SIZE cfg).

(** The high-error-rate alerts raised, read off the printed lines as pairs
    (error count, window size): line 165 is printed once for each call of
    [send_slack_alert] in [check_error_rate]. *)
Definition error_rate_alert_of (p : printed) : option (Z * Z) :=
  match p with
  | PAlert (ErrorRateMsg _ _ error_count window_size _) =>
      Some (error_count, window_size)
  | _ => None
  end.

Definition error_rate_alerts (out : list printed) : list (Z * Z) :=
  omap error_rate_alert_of out.

(** The pool labels of the lines that parse, in order. *)
Definition pool_of_line (line : string) : option string :=
  match parse_log_line line with
  | Ok data => pool data
  | Raise _ => None
  end.

Definition pool_labels (lines : list string) : list string :=
  omap pool_of_line lines.

(** *** The line source *)

(** [str.strip()] of line 55: whitespace is removed at both ends. *)
Fixpoint lstrip (s : string) : string :=
  match s with
  | EmptyString => EmptyString
  | String c rest => if Regex.is_space c then lstrip rest else s
  end.

Fixpoint rstrip (s : string) : string :=
  match s with
  | EmptyString => EmptyString
  | String c rest =>
      match rstrip rest with
      | EmptyString => if Regex.is_space c then EmptyString
                       else String c EmptyString
      | kept => String c kept
      end
  end.

Definition strip (s : string) : string := lstrip (rstrip s).

(** The loop of lines 52-57 of [tail_log_file], over the results of the
    successive calls of [file.readline()]: an empty result (no new data)
    yields nothing, any other is yielded stripped. *)
Definition tail_yield (read : string) : option string :=
  match read with
  | EmptyString => None
  | _ => Some (strip read)
  end.

Definition tail_log_file (reads : list string) : list string :=
  omap tail_yield reads.

(** The last character of [s] is in the class [p]. *)
Fixpoint last_in (p : ascii -> bool) (s : string) : bool :=
  match s with
  | EmptyString => false
  | String c EmptyString => p c
  | String _ rest => last_in p rest
  end.

(** The event [data] with its client status replaced. *)
Definition with_status (st : option Z) (data : RequestEvent) : RequestEvent :=
  {| pool := pool data; release := release data;
     upstream_status := upstream_status data; upstream := upstream data;
     request_time := request_time data; upstream_time := upstream_time data;
     status := st |}.

(** A key of a [key=value] pattern: not empty and without whitespace; and
    a class of value characters: without whitespace. *)
Definition space_free (s : string) : bool :=
  all_chars (fun c => negb (Regex.is_space c)) s.

Definition class_space_free (cls : ascii -> bool) : Prop :=
  forall c : ascii, cls c = true -> Regex.is_space c = false.

(** A raw line with a request field, a status and a pool label, as
    [readline] returns it, and the event it parses to. *)
Definition raw_line_404 : string :=
  (dq ++ "GET / HTTP/1.1" ++ dq ++ " 404 pool=blue" ++
   String (ascii_of_nat 10) EmptyString)%string.

Definition event_404_blue : RequestEvent :=
  {| pool := Some "blue"; release := None; upstream_status := None;
     upstream := None; request_time := None; upstream_time := None;
     status := Some 404 |}.

(** The defaults with a window of size 0, and with no webhook. *)
Definition zero_window_cfg : Config :=
  with_window 0 (float_of_int 2) default_cfg.

Definition no_webhook_cfg : Config :=
  {| SLACK_WEBHOOK_URL := None;
     ERROR_RATE_THRESHOLD := float_of_int 2;
     WINDOW_SIZE := 200;
     ALERT_COOLDOWN_SEC := 300;
     MAINTENANCE_MODE := false |}.

(** The alerts printed (lines 139 and 165), in order. *)
Definition alert_of (p : printed) : option message :=
  match p with
  | PAlert m => Some m
  | _ => None
  end.

Definition alerts (out : list printed) : list message := omap alert_of out.

(** The event of a line with no recognizable field. *)
Definition empty_event : RequestEvent :=
  {| pool := None; release := None; upstream_status := None;
     upstream := None; request_time := None; upstream_time := None;
     status := None |}.

(** * Properties *)

(** ** The parser *)

Example parse_example_line :
  parse_log_line example_line =
  Ok {| pool := Some "blue";
        release := Some "blue-v1.0.0";
        upstream_status := Some 200;
        upstream := Some "172.18.0.2:3000";
        request_time := Some {| mantissa := 45; scale := 3 |};
        upstream_time := Some {| mantissa := 32; scale := 3 |};
        status := Some 200 |}.
Proof. vm_compute. reflexivity. Qed.

Lemma match_key_nonempty key cls s g :
  Regex.match_key key cls s = Some g -> g <> EmptyString.
Proof.
  unfold Regex.match_key.
  destruct (Regex.strip_prefix key s) as [rest|]; [|discriminate].
  destruct (fst (Regex.span cls rest)); [discriminate|].
  intros [= <-]. discriminate.
Qed.

(** A successful search is a match at some position of the line. *)
Lemma search_some {A : Type} (m : string -> option A) (s : string) (r : A) :
  Regex.search m s = Some r ->
  exists skipped rest : string, s = (skipped ++ rest)%string /\ m rest = Some r.
Proof.
  induction s as [|c s IH]; cbn [Regex.search].
  - destruct (m EmptyString) eqn:E; [|discriminate].
    intros [= <-]. exists EmptyString, EmptyString. auto.
  - destruct (m (String c s)) eqn:E.
    + intros [= <-]. exists EmptyString, (String c s). auto.
    + intros H. destruct (IH H) as (sk & rest & -> & Hm).
      exists (String c sk), rest. auto.
Qed.

Lemma parse_log_line_pool line data :
  parse_log_line line = Ok data ->
  pool data = Regex.search (Regex.match_key "pool=" Regex.is_word) line.
Proof.
  unfold parse_log_line.
  destruct (float_field _) as [rt|]; [|discriminate]. cbn [rbind].
  destruct (float_field _) as [ut|]; [|discriminate]. cbn [rbind].
  intros [= <-]. reflexivity.
Qed.

(** The pool label of an event of the parser is never the empty string:
    [\w+] takes at least one character. *)
Lemma parsed_pool_truthy data :
  parsed data -> forall p, pool data = Some p -> truthy_str (pool data) = true.
Proof.
  intros [line Hline] p Hp.
  rewrite (parse_log_line_pool _ _ Hline) in *.
  destruct (search_some _ _ _ Hp) as (sk & rest & _ & Hm).
  apply match_key_nonempty in Hm. rewrite Hp.
  destruct p; [congruence|reflexivity].
Qed.


(** C1. The parser is not total: on the line [request_time=1.2.3] the
    pattern [[\d\.]+] matches [1.2.3], [float] raises [ValueError], the
    exception leaves [parse_log_line] and ends the loop of [main]. *)
Theorem parse_log_line_raises_on_two_dots (cfg : Config) (env : Env) (s : State) :
  Regex.search (Regex.match_key "request_time=" Regex.is_time_char)
               "request_time=1.2.3" = Some "1.2.3" /\
  parse_log_line "request_time=1.2.3" = Raise ValueError /\
  main_loop cfg env ["request_time=1.2.3"] s =
    Raised ValueError (print (PFatal ValueError) s).
Proof.
  assert (Hparse : parse_log_line "request_time=1.2.3" = Raise ValueError)
    by (vm_compute; reflexivity).
  split; [vm_compute; reflexivity|]. split; [exact Hparse|].
  cbn [main_loop]. unfold main_step. rewrite Hparse. reflexivity.
Qed.

(** ** The bounded window *)

Lemma appends_snoc capacity xs x :
  appends capacity (xs ++ [x]) = deque_append capacity x (appends capacity xs).
Proof. unfold appends. rewrite fold_left_app. reflexivity. Qed.

Lemma tail_drop {A : Type} (l : list A) : tail l = drop 1 l.
Proof. destruct l; reflexivity. Qed.

Lemma appends_drop capacity xs :
  0 <= capacity ->
  appends capacity xs = drop (length xs - Z.to_nat capacity)%nat xs.
Proof.
  intros Hcap. induction xs as [|x xs IH] using rev_ind.
  - reflexivity.
  - rewrite appends_snoc, IH. unfold deque_append.
    rewrite <- drop_app_le by lia.
    rewrite tail_drop, drop_drop, length_drop, !length_app. cbn [length].
    destruct (Z.ltb_spec capacity
                (Z.of_nat (length xs + 1 - (length xs - Z.to_nat capacity))));
      f_equal; lia.
Qed.

Lemma appends_length capacity xs :
  0 <= capacity ->
  length (appends capacity xs) = Nat.min (length xs) (Z.to_nat capacity).
Proof. intros H. rewrite appends_drop, length_drop by done. lia. Qed.

(** C4. After any sequence [xs] of appends the window holds at most
    [capacity] entries, exactly [min (length xs) capacity] of them, and they
    are the most recent ones in order; after [capacity + 1] appends the
    oldest entry is gone. *)
Theorem window_bounded_fifo (capacity : Z) (xs : list Z) :
  0 <= capacity ->
  Z.of_nat (length (appends capacity xs)) <= capacity /\
  length (appends capacity xs) = Nat.min (length xs) (Z.to_nat capacity) /\
  appends capacity xs = drop (length xs - Z.to_nat capacity)%nat xs /\
  (forall oldest rest,
     xs = oldest :: rest -> Z.of_nat (length rest) = capacity ->
     appends capacity xs = rest).
Proof.
  intros Hcap. repeat split.
  - rewrite appends_length by done. lia.
  - by apply appends_length.
  - by apply appends_drop.
  - intros oldest rest -> Hlen. rewrite appends_drop by done. cbn [length].
    replace (S (length rest) - Z.to_nat capacity)%nat with 1%nat by lia.
    reflexivity.
Qed.

Lemma window_bounded_fifo_witness :
  appends 3 [200; 500; 404; 502] = [500; 404; 502].
Proof.
  destruct (window_bounded_fifo 3 [200; 500; 404; 502]) as (_ & _ & _ & Hevict).
  - lia.
  - apply (Hevict 200 [500; 404; 502]); reflexivity.
Defined.

(** ** What each function leaves alone *)

Section Frames.

Variable cfg : Config.
Variable env : Env.

Lemma try_post_frame t c m s :
  last_pool (try_post env t c m s) = last_pool s /\
  request_window (try_post env t c m s) = request_window s /\
  request_count (try_post env t c m s) = request_count s.
Proof.
  unfold try_post, post. cbv beta iota zeta.
  destruct (webhook env (length (posted s))) as [code|]; [|done].
  destruct (code =? 200); done.
Qed.

Lemma try_post_output_alerts t c m s :
  failover_alerts (output (try_post env t c m s)) = failover_alerts (output s).
Proof.
  unfold try_post, post, failover_alerts. cbv beta iota zeta.
  destruct (webhook env (length (posted s))) as [code|];
    [destruct (code =? 200)|];
    cbn [output print set_last_alert_time]; rewrite omap_app; apply app_nil_r.
Qed.

(** A dispatch ends in one of four ways. *)
Lemma send_slack_alert_cases m c s :
  send_slack_alert cfg env m c s = print (PMaintenance c) s \/
  send_slack_alert cfg env m c s = print PNotConfigured s \/
  (exists remaining : Z,
     send_slack_alert cfg env m c s = print (PCooldown remaining) (now_state env s)) \/
  send_slack_alert cfg env m c s =
    try_post env (clock env (clock_reads s)) c m (now_state env s).
Proof.
  unfold send_slack_alert.
  destruct (MAINTENANCE_MODE cfg); [by left|].
  destruct (negb _); [by right; left|].
  unfold now_state, now. cbv beta iota zeta. cbn [last_alert_time snd].
  destruct (last_alert_time s !! c) as [last|]; [|by right; right; right].
  destruct (_ <? _); [right; right; left; by eexists | by right; right; right].
Qed.

Lemma send_slack_alert_frame m c s :
  last_pool (send_slack_alert cfg env m c s) = last_pool s /\
  request_window (send_slack_alert cfg env m c s) = request_window s /\
  request_count (send_slack_alert cfg env m c s) = request_count s.
Proof.
  destruct (send_slack_alert_cases m c s) as [-> | [-> | [[r ->] | ->]]];
    try done.
  exact (try_post_frame _ c m (now_state env s)).
Qed.

Lemma send_slack_alert_no_failover_print m c s :
  failover_alerts (output (send_slack_alert cfg env m c s)) =
  failover_alerts (output s).
Proof.
  destruct (send_slack_alert_cases m c s) as [-> | [-> | [[r ->] | ->]]].
  - unfold failover_alerts, print. cbn [output]. rewrite omap_app. apply app_nil_r.
  - unfold failover_alerts, print. cbn [output]. rewrite omap_app. apply app_nil_r.
  - unfold failover_alerts, print, now_state, now. cbn [output snd].
    rewrite omap_app. apply app_nil_r.
  - exact (try_post_output_alerts _ c m (now_state env s)).
Qed.

Lemma send_slack_alert_maintenance m c s :
  MAINTENANCE_MODE cfg = true ->
  send_slack_alert cfg env m c s = print (PMaintenance c) s.
Proof. intros H. unfold send_slack_alert. rewrite H. reflexivity. Qed.

Lemma detect_failover_frame p s :
  request_window (detect_failover cfg env p s) = request_window s /\
  request_count (detect_failover cfg env p s) = request_count s.
Proof.
  unfold detect_failover.
  destruct p as [[|a p]|]; try done.
  destruct (last_pool s) as [previous|]; [|done].
  destruct (negb _); [|done].
  unfold now. cbv beta iota zeta. cbn [set_last_pool request_window request_count].
  split.
  - by rewrite (proj1 (proj2 (send_slack_alert_frame _ _ _))).
  - by rewrite (proj2 (proj2 (send_slack_alert_frame _ _ _))).
Qed.

Lemma check_error_rate_frame s :
  last_pool (final (check_error_rate cfg env s)) = last_pool s /\
  request_window (final (check_error_rate cfg env s)) = request_window s /\
  request_count (final (check_error_rate cfg env s)) = request_count s.
Proof.
  unfold check_error_rate.
  destruct (_ <? _); [done|].
  destruct (WINDOW_SIZE cfg =? 0); [done|].
  cbv zeta.
  destruct (PrimFloat.ltb _ _); [|done].
  unfold now. cbv beta iota. cbn [final].
  repeat split.
  - by rewrite (proj1 (send_slack_alert_frame _ _ _)).
  - by rewrite (proj1 (proj2 (send_slack_alert_frame _ _ _))).
  - by rewrite (proj2 (proj2 (send_slack_alert_frame _ _ _))).
Qed.

End Frames.

(** ** The failover detector *)

Section Detector.

Variable cfg : Config.
Variable env : Env.

(** The three transitions of the detector on a label. *)
Lemma detect_failover_baseline p s :
  p <> EmptyString -> last_pool s = None ->
  detect_failover cfg env (Some p) s = print (PBaseline p) (set_last_pool (Some p) s).
Proof.
  intros Hp Hs. unfold detect_failover. destruct p; [done|]. by rewrite Hs.
Qed.

Lemma detect_failover_steady p s :
  last_pool s = Some p -> detect_failover cfg env (Some p) s = s.
Proof.
  intros Hs. unfold detect_failover. destruct p; [done|].
  by rewrite Hs, String.eqb_refl.
Qed.

Lemma detect_failover_change p q s :
  q <> EmptyString -> q <> p -> last_pool s = Some p ->
  let m := FailoverMsg p q (clock env (clock_reads s)) in
  detect_failover cfg env (Some q) s =
  set_last_pool (Some q)
    (send_slack_alert cfg env m "failover" (print (PAlert m) (now_state env s))).
Proof.
  intros Hq Hne Hs. unfold detect_failover. destruct q as [|c q]; [done|].
  rewrite Hs. apply String.eqb_neq in Hne. by rewrite Hne.
Qed.

Lemma detect_failover_change_alerts p q s :
  q <> EmptyString -> q <> p -> last_pool s = Some p ->
  last_pool (detect_failover cfg env (Some q) s) = Some q /\
  failover_alerts (output (detect_failover cfg env (Some q) s)) =
  failover_alerts (output s) ++ [(p, q)].
Proof.
  intros Hq Hne Hs. rewrite (detect_failover_change p q s) by done.
  split; [reflexivity|].
  cbn [output set_last_pool]. rewrite send_slack_alert_no_failover_print.
  unfold failover_alerts. simpl. by rewrite omap_app.
Qed.

Lemma track_pool_parsed data p s :
  parsed data -> pool data = Some p ->
  p <> EmptyString /\ track_pool cfg env data s = detect_failover cfg env (Some p) s.
Proof.
  intros Hd Hp. pose proof (parsed_pool_truthy data Hd p Hp) as Ht.
  unfold track_pool. rewrite Ht, Hp. split; [|done].
  rewrite Hp in Ht. by destruct p.
Qed.

(** C2. From the unestablished state, events of the parser with the pool
    labels [p0, p1, p1, p2] ([p0 <> p1], [p1 <> p2]) raise exactly two
    failover alerts: the first event sets the baseline [p0] and raises
    nothing, the second raises the alert from [p0] to [p1], the third
    changes nothing at all, and the fourth raises the alert from [p1] to
    [p2]. *)
Theorem failover_sequence_two_alerts
    (s0 : State) (e0 e1 e2 e3 : RequestEvent) (p0 p1 p2 : string) :
  parsed e0 -> parsed e1 -> parsed e2 -> parsed e3 ->
  pool e0 = Some p0 -> pool e1 = Some p1 ->
  pool e2 = Some p1 -> pool e3 = Some p2 ->
  p0 <> p1 -> p1 <> p2 ->
  last_pool s0 = None ->
  let s1 := track_pool cfg env e0 s0 in
  let s2 := track_pool cfg env e1 s1 in
  let s3 := track_pool cfg env e2 s2 in
  let s4 := track_pool cfg env e3 s3 in
  (last_pool s1 = Some p0 /\
   failover_alerts (output s1) = failover_alerts (output s0)) /\
  (last_pool s2 = Some p1 /\
   failover_alerts (output s2) = failover_alerts (output s0) ++ [(p0, p1)]) /\
  s3 = s2 /\
  (last_pool s4 = Some p2 /\
   failover_alerts (output s4) =
   failover_alerts (output s0) ++ [(p0, p1); (p1, p2)]).
Proof.
  intros H0 H1 H2 H3 P0 P1 P2 P3 N01 N12 Hs0. cbv zeta.
  destruct (track_pool_parsed e0 p0 s0 H0 P0) as [Hp0 ->].
  rewrite (detect_failover_baseline p0 s0 Hp0 Hs0).
  set (s1 := print (PBaseline p0) (set_last_pool (Some p0) s0)).
  assert (L1 : last_pool s1 = Some p0) by reflexivity.
  assert (A1 : failover_alerts (output s1) = failover_alerts (output s0)).
  { unfold failover_alerts. simpl. rewrite omap_app. apply app_nil_r. }
  destruct (track_pool_parsed e1 p1 s1 H1 P1) as [Hp1 ->].
  destruct (detect_failover_change_alerts p0 p1 s1 Hp1 (not_eq_sym N01) L1)
    as [L2 A2].
  set (s2 := detect_failover cfg env (Some p1) s1) in *.
  destruct (track_pool_parsed e2 p1 s2 H2 P2) as [_ ->].
  rewrite (detect_failover_steady p1 s2 L2).
  destruct (track_pool_parsed e3 p2 s2 H3 P3) as [Hp2 ->].
  destruct (detect_failover_change_alerts p1 p2 s2 Hp2 (not_eq_sym N12) L2)
    as [L4 A4].
  repeat split; try done.
  - by rewrite A2, A1.
  - rewrite A4, A2, A1, <- app_assoc. reflexivity.
Qed.


(** C8. The first event of the parser that carries a pool label, whatever
    the label, moves the detector from the unestablished state to that
    label: it prints the baseline line and nothing else, raises no alert and
    posts nothing. An event with no pool label changes nothing in any
    state. *)
Theorem first_pool_sets_baseline (s : State) (data : RequestEvent) (p : string) :
  parsed data -> pool data = Some p -> last_pool s = None ->
  track_pool cfg env data s = print (PBaseline p) (set_last_pool (Some p) s) /\
  last_pool (track_pool cfg env data s) = Some p /\
  failover_alerts (output (track_pool cfg env data s)) =
    failover_alerts (output s) /\
  posted (track_pool cfg env data s) = posted s /\
  (forall (s' : State) (data' : RequestEvent),
     pool data' = None ->
     track_pool cfg env data' s' = s' /\ detect_failover cfg env (pool data') s' = s').
Proof.
  intros Hd Hp Hs.
  destruct (track_pool_parsed data p s Hd Hp) as [Hne ->].
  rewrite (detect_failover_baseline p s Hne Hs).
  repeat split; try intros s' data' H.
  - unfold failover_alerts. simpl. rewrite omap_app. apply app_nil_r.
  - unfold track_pool. rewrite H. reflexivity.
  - rewrite H. reflexivity.
Qed.

(** C10. When the label [q] differs from the established pool [p], the
    detector raises the alert and sets [last_pool] to [q] under every
    configuration and every behaviour of the clock and of the webhook, so
    also when the alert is suppressed or its delivery fails; every later
    event with the label [q] then leaves the state as it is. *)
Theorem pool_change_recorded_once (s : State) (p q : string) :
  last_pool s = Some p -> q <> p -> q <> EmptyString ->
  let s1 := detect_failover cfg env (Some q) s in
  last_pool s1 = Some q /\
  failover_alerts (output s1) = failover_alerts (output s) ++ [(p, q)] /\
  (forall n : nat, Nat.iter n (detect_failover cfg env (Some q)) s1 = s1) /\
  (forall s2 : State, last_pool s2 = Some q ->
     detect_failover cfg env (Some q) s2 = s2).
Proof.
  intros Hs Hne Hq. cbv zeta.
  destruct (detect_failover_change_alerts p q s Hq Hne Hs) as [L A].
  repeat split; try done.
  - intros n. induction n as [|n IH]; [reflexivity|].
    rewrite Nat.iter_succ, IH. by apply detect_failover_steady.
  - intros s2. apply detect_failover_steady.
Qed.

End Detector.

(** ** The alert dispatcher *)

Section Dispatcher.

Variable cfg : Config.
Variable env : Env.

(** The four outcomes of a dispatch, in the order of the tests. *)
Lemma send_slack_alert_unconfigured m c s :
  MAINTENANCE_MODE cfg = false -> truthy_str (SLACK_WEBHOOK_URL cfg) = false ->
  send_slack_alert cfg env m c s = print PNotConfigured s.
Proof. intros H1 H2. unfold send_slack_alert. by rewrite H1, H2. Qed.

Lemma send_slack_alert_cooldown m c s last :
  MAINTENANCE_MODE cfg = false -> truthy_str (SLACK_WEBHOOK_URL cfg) = true ->
  last_alert_time s !! c = Some last ->
  clock env (clock_reads s) - last < ALERT_COOLDOWN_SEC cfg * microseconds ->
  send_slack_alert cfg env m c s =
  print (PCooldown (ALERT_COOLDOWN_SEC cfg * microseconds
                    - (clock env (clock_reads s) - last)))
        (now_state env s).
Proof.
  intros H1 H2 H3 H4. unfold send_slack_alert. rewrite H1, H2.
  unfold now. cbv beta iota zeta. cbn [negb last_alert_time snd].
  rewrite H3. apply Z.ltb_lt in H4. by rewrite H4.
Qed.

Lemma send_slack_alert_attempt m c s :
  MAINTENANCE_MODE cfg = false -> truthy_str (SLACK_WEBHOOK_URL cfg) = true ->
  in_cooldown cfg (clock env (clock_reads s)) c s = false ->
  send_slack_alert cfg env m c s =
  try_post env (clock env (clock_reads s)) c m (now_state env s).
Proof.
  intros H1 H2 H3. unfold send_slack_alert, in_cooldown in *. rewrite H1, H2.
  unfold now. cbv beta iota zeta. cbn [negb last_alert_time snd].
  destruct (last_alert_time s !! c); [|done]. by rewrite H3.
Qed.

Lemma try_post_posted t c m s : posted (try_post env t c m s) = posted s ++ [m].
Proof.
  unfold try_post, post. cbv beta iota zeta.
  destruct (webhook env (length (posted s))) as [code|]; [|done].
  destruct (code =? 200); done.
Qed.

Lemma try_post_failure t c m s :
  webhook env (length (posted s)) <> Response 200 ->
  last_alert_time (try_post env t c m s) = last_alert_time s.
Proof.
  intros H. unfold try_post, post. cbv beta iota zeta.
  destruct (webhook env _) as [code|]; [|done].
  destruct (Z.eqb_spec code 200); [congruence|done].
Qed.

Lemma try_post_success t c m s :
  webhook env (length (posted s)) = Response 200 ->
  last_alert_time (try_post env t c m s) = <[c := t]> (last_alert_time s).
Proof. intros H. unfold try_post, post. cbv beta iota zeta. by rewrite H. Qed.

Lemma send_slack_alert_posted_cases m c s :
  (posted (send_slack_alert cfg env m c s) = posted s /\
   last_alert_time (send_slack_alert cfg env m c s) = last_alert_time s) \/
  (MAINTENANCE_MODE cfg = false /\ truthy_str (SLACK_WEBHOOK_URL cfg) = true /\
   in_cooldown cfg (clock env (clock_reads s)) c s = false /\
   posted (send_slack_alert cfg env m c s) = posted s ++ [m]).
Proof.
  destruct (MAINTENANCE_MODE cfg) eqn:H1.
  { left. by rewrite send_slack_alert_maintenance. }
  destruct (truthy_str (SLACK_WEBHOOK_URL cfg)) eqn:H2.
  2:{ left. by rewrite send_slack_alert_unconfigured. }
  destruct (in_cooldown cfg (clock env (clock_reads s)) c s) eqn:H3.
  - left. unfold in_cooldown in H3.
    destruct (last_alert_time s !! c) as [last|] eqn:E; [|done].
    apply Z.ltb_lt in H3. by rewrite (send_slack_alert_cooldown m c s last).
  - right. repeat split; try done.
    rewrite send_slack_alert_attempt by done. by rewrite try_post_posted.
Qed.

(** C5. A dispatch that reaches the webhook and fails (any response other
    than 200, or an exception) leaves the cooldown table as it was, and the
    dispatch of the same category that follows it, at a time that is not
    earlier, reaches the webhook again. *)
Theorem failed_send_keeps_cooldown_clock (m m' : message) (c : string) (s : State) :
  posted (send_slack_alert cfg env m c s) = posted s ++ [m] ->
  webhook env (length (posted s)) <> Response 200 ->
  let s1 := send_slack_alert cfg env m c s in
  last_alert_time s1 = last_alert_time s /\
  (clock env (clock_reads s) <= clock env (clock_reads s1) ->
   posted (send_slack_alert cfg env m' c s1) = posted s1 ++ [m']).
Proof.
  intros Hpost Hfail. cbv zeta.
  destruct (send_slack_alert_posted_cases m c s) as [[Hsame _]|(H1 & H2 & H3 & _)].
  { rewrite Hsame in Hpost. apply (f_equal length) in Hpost.
    rewrite length_app in Hpost. simpl in Hpost. lia. }
  rewrite (send_slack_alert_attempt m c s H1 H2 H3) in *.
  assert (Ht : last_alert_time
                 (try_post env (clock env (clock_reads s)) c m (now_state env s))
               = last_alert_time s) by (by rewrite try_post_failure).
  split; [done|].
  intros Hmono.
  destruct (send_slack_alert_posted_cases m' c
              (try_post env (clock env (clock_reads s)) c m (now_state env s)))
    as [[Hsame _]|(_ & _ & _ & Hp)]; [|done].
  exfalso.
  set (s1 := try_post env (clock env (clock_reads s)) c m (now_state env s)) in *.
  assert (H3' : in_cooldown cfg (clock env (clock_reads s1)) c s1 = false).
  { unfold in_cooldown in *. rewrite Ht.
    destruct (last_alert_time s !! c) as [last|]; [|done].
    apply Z.ltb_ge in H3. apply Z.ltb_ge. lia. }
  rewrite (send_slack_alert_attempt m' c s1 H1 H2 H3'), try_post_posted in Hsame.
  apply (f_equal length) in Hsame. rewrite length_app in Hsame. simpl in Hsame. lia.
Qed.

Lemma in_cooldown_insert_ne t c c' t0 s :
  c' <> c ->
  in_cooldown cfg t c' (set_last_alert_time (<[c := t0]> (last_alert_time s)) s)
  = in_cooldown cfg t c' s.
Proof.
  intros Hne. unfold in_cooldown. cbn [set_last_alert_time last_alert_time].
  by rewrite lookup_insert_ne.
Qed.

Lemma send_slack_alert_other_category m c c' t0 s :
  c' <> c ->
  send_slack_alert cfg env m c'
    (set_last_alert_time (<[c := t0]> (last_alert_time s)) s) =
  set_last_alert_time
    (<[c := t0]> (last_alert_time (send_slack_alert cfg env m c' s)))
    (send_slack_alert cfg env m c' s).
Proof.
  intros Hne. unfold send_slack_alert.
  destruct (MAINTENANCE_MODE cfg); [reflexivity|].
  destruct (negb _); [reflexivity|].
  unfold now. cbv beta iota zeta.
  cbn [set_last_alert_time last_alert_time clock_reads].
  rewrite lookup_insert_ne by done.
  assert (Htry : forall t,
    try_post env t c' m
      {| last_pool := last_pool s; request_window := request_window s;
         last_alert_time := <[c:=t0]> (last_alert_time s);
         request_count := request_count s; clock_reads := S (clock_reads s);
         posted := posted s; output := output s |} =
    set_last_alert_time
      (<[c:=t0]> (last_alert_time (try_post env t c' m (now_state env s))))
      (try_post env t c' m (now_state env s))).
  { intros t. unfold try_post, post, now_state, now. cbv beta iota zeta.
    cbn [posted last_alert_time snd].
    destruct (webhook env (length (posted s))) as [code|]; [|reflexivity].
    destruct (code =? 200); [|reflexivity].
    unfold set_last_alert_time, print. cbn. f_equal.
    by apply insert_insert_ne. }
  destruct (last_alert_time s !! c') as [last|]; [|apply Htry].
  destruct (_ <? _); [reflexivity | apply Htry].
Qed.

(** C7. A successful send of category [c] at time [t] records [t] for
    [c]; while that entry stands, every dispatch of [c] at a time less than
    the cooldown after [t] is suppressed as a cooldown: nothing is posted
    and the table is unchanged. The entries and the cooldown test of every
    other category are untouched, and a dispatch of another category does
    the same whether or not [c] has an entry. *)
Theorem cooldown_per_category (m m' : message) (c : string) (s : State) :
  MAINTENANCE_MODE cfg = false ->
  truthy_str (SLACK_WEBHOOK_URL cfg) = true ->
  in_cooldown cfg (clock env (clock_reads s)) c s = false ->
  webhook env (length (posted s)) = Response 200 ->
  let t := clock env (clock_reads s) in
  let s1 := send_slack_alert cfg env m c s in
  (posted s1 = posted s ++ [m] /\ last_alert_time s1 !! c = Some t) /\
  (forall s2 : State,
     last_alert_time s2 !! c = Some t ->
     clock env (clock_reads s2) - t < ALERT_COOLDOWN_SEC cfg * microseconds ->
     posted (send_slack_alert cfg env m' c s2) = posted s2 /\
     last_alert_time (send_slack_alert cfg env m' c s2) = last_alert_time s2 /\
     output (send_slack_alert cfg env m' c s2) =
       output s2 ++ [PCooldown (ALERT_COOLDOWN_SEC cfg * microseconds
                                - (clock env (clock_reads s2) - t))]) /\
  (forall c' : string, c' <> c ->
     last_alert_time s1 !! c' = last_alert_time s !! c' /\
     in_cooldown cfg (clock env (clock_reads s1)) c' s1 =
       in_cooldown cfg (clock env (clock_reads s1)) c' s) /\
  (forall (c' : string) (t0 : Z) (s2 : State), c' <> c ->
     send_slack_alert cfg env m' c'
       (set_last_alert_time (<[c := t0]> (last_alert_time s2)) s2) =
     set_last_alert_time
       (<[c := t0]> (last_alert_time (send_slack_alert cfg env m' c' s2)))
       (send_slack_alert cfg env m' c' s2)).
Proof.
  intros H1 H2 H3 H4. cbv zeta.
  rewrite (send_slack_alert_attempt m c s H1 H2 H3).
  assert (Ht : last_alert_time
                 (try_post env (clock env (clock_reads s)) c m (now_state env s))
               = <[c := clock env (clock_reads s)]> (last_alert_time s))
    by (by rewrite try_post_success).
  split; [split|split; [|split]].
  - by rewrite try_post_posted.
  - rewrite Ht. apply lookup_insert_eq.
  - intros s2 Hentry Hlt.
    rewrite (send_slack_alert_cooldown m' c s2 _ H1 H2 Hentry Hlt).
    repeat split.
  - intros c' Hne. split.
    + rewrite Ht. by apply lookup_insert_ne.
    + unfold in_cooldown. rewrite Ht. by rewrite lookup_insert_ne.
  - intros c' t0 s2 Hne. by apply send_slack_alert_other_category.
Qed.

End Dispatcher.

(** ** The driver loop *)

Section Driver.

Variable cfg : Config.
Variable env : Env.

Lemma detect_failover_maintenance p s :
  MAINTENANCE_MODE cfg = true ->
  posted (detect_failover cfg env p s) = posted s.
Proof.
  intros H. unfold detect_failover.
  destruct p as [[|a p]|]; try done.
  destruct (last_pool s) as [previous|]; [|done].
  destruct (negb _); [|done].
  unfold now. cbv beta iota zeta.
  by rewrite send_slack_alert_maintenance.
Qed.

Lemma check_error_rate_maintenance s :
  MAINTENANCE_MODE cfg = true ->
  posted (final (check_error_rate cfg env s)) = posted s.
Proof.
  intros H. unfold check_error_rate.
  destruct (_ <? _); [done|].
  destruct (WINDOW_SIZE cfg =? 0); [done|].
  cbv zeta. destruct (PrimFloat.ltb _ _); [|done].
  unfold now. cbv beta iota. cbn [final].
  by rewrite send_slack_alert_maintenance.
Qed.

Lemma main_step_maintenance line s :
  MAINTENANCE_MODE cfg = true ->
  posted (final (main_step cfg env line s)) = posted s.
Proof.
  intros H. unfold main_step.
  destruct (parse_log_line line) as [data|e]; [|done].
  set (s1 := track_request cfg data s).
  assert (E1 : posted s1 = posted s).
  { unfold s1, track_request. destruct (truthy_int _); [|done].
    destruct (upstream_status data); done. }
  set (s2 := track_pool cfg env data s1).
  assert (E2 : posted s2 = posted s1).
  { unfold s2, track_pool. destruct (truthy_str _); [|done].
    by apply detect_failover_maintenance. }
  assert (E3 : posted (final (track_error_rate cfg env s2)) = posted s2).
  { unfold track_error_rate. destruct (_ <=? _); [|done].
    by apply check_error_rate_maintenance. }
  destruct (track_error_rate cfg env s2) as [s3|e s3]; cbn [final] in *.
  - unfold debug_output. destruct (_ =? _); cbn [print posted]; congruence.
  - congruence.
Qed.

Lemma main_loop_maintenance lines s :
  MAINTENANCE_MODE cfg = true ->
  posted (final (main_loop cfg env lines s)) = posted s.
Proof.
  intros H. revert s. induction lines as [|line rest IH]; intros s; [done|].
  cbn [main_loop]. pose proof (main_step_maintenance line s H) as Hs.
  destruct (main_step cfg env line s) as [s'|e s']; cbn [final] in *.
  - by rewrite IH.
  - done.
Qed.

(** The window of the running loop only changes by [append]. *)
Lemma main_step_window line s :
  request_window (final (main_step cfg env line s)) = request_window s \/
  exists st : Z,
    request_window (final (main_step cfg env line s)) =
    deque_append (WINDOW_SIZE cfg) st (request_window s).
Proof.
  unfold main_step.
  destruct (parse_log_line line) as [data|e]; [|by left].
  set (s1 := track_request cfg data s).
  set (s2 := track_pool cfg env data s1).
  assert (E2 : request_window s2 = request_window s1).
  { unfold s2, track_pool. destruct (truthy_str _); [|done].
    apply (detect_failover_frame cfg env). }
  assert (E3 : request_window (final (track_error_rate cfg env s2)) =
               request_window s2).
  { unfold track_error_rate. destruct (_ <=? _); [|done].
    apply (check_error_rate_frame cfg env). }
  assert (E1 : request_window s1 = request_window s \/
               exists st, request_window s1 =
                          deque_append (WINDOW_SIZE cfg) st (request_window s)).
  { unfold s1, track_request. destruct (truthy_int _); [|by left].
    destruct (upstream_status data) as [st|]; [right; by exists st | by left]. }
  assert (E : request_window
                (final match track_error_rate cfg env s2 with
                       | Returned s3 => Returned (debug_output data s3)
                       | Raised e s3 => Raised e s3
                       end) = request_window s1).
  { destruct (track_error_rate cfg env s2) as [s3|e s3]; cbn [final] in *.
    - unfold debug_output. destruct (_ =? _); cbn [print request_window];
        congruence.
    - congruence. }
  rewrite E. exact E1.
Qed.

Lemma main_loop_window lines s xs :
  request_window s = appends (WINDOW_SIZE cfg) xs ->
  exists ys : list Z,
    request_window (final (main_loop cfg env lines s)) =
    appends (WINDOW_SIZE cfg) (xs ++ ys).
Proof.
  revert s xs. induction lines as [|line rest IH]; intros s xs Hs.
  - exists []. by rewrite app_nil_r.
  - cbn [main_loop]. destruct (main_step_window line s) as [Hw|[st Hw]];
      destruct (main_step cfg env line s) as [s'|e s']; cbn [final print request_window] in *.
    + apply IH. congruence.
    + exists []. rewrite app_nil_r. congruence.
    + destruct (IH s' (xs ++ [st])) as [ys Hys].
      { by rewrite appends_snoc, <- Hs. }
      exists (st :: ys). by rewrite Hys, <- app_assoc.
    + exists [st]. by rewrite appends_snoc, <- Hs.
Qed.

(** From process start the window never exceeds its capacity. *)
Lemma main_loop_window_bounded lines s0 :
  startup cfg = Returned s0 ->
  Z.of_nat (length (request_window (final (main_loop cfg env lines s0))))
  <= WINDOW_SIZE cfg.
Proof.
  unfold startup. destruct (Z.ltb_spec (WINDOW_SIZE cfg) 0); [done|].
  intros [= <-].
  destruct (main_loop_window lines initial_state []) as [ys ->]; [done|].
  rewrite appends_length by done. lia.
Qed.

(** C6. The tests of a dispatch are made in the order maintenance mode,
    missing webhook, cooldown, and the first that holds suppresses the send:
    in maintenance mode the dispatch prints the maintenance line and does
    nothing else, whatever the webhook setting and the cooldown table; with
    no webhook it prints the not-configured line without reading the clock
    or the table; in cooldown it posts nothing; otherwise it posts. In
    maintenance mode no run of the loop, over any lines and from any state,
    posts anything. *)
Theorem suppression_order (m : message) (c : string) (s : State) :
  (MAINTENANCE_MODE cfg = true ->
   send_slack_alert cfg env m c s = print (PMaintenance c) s) /\
  (MAINTENANCE_MODE cfg = false ->
   truthy_str (SLACK_WEBHOOK_URL cfg) = false ->
   send_slack_alert cfg env m c s = print PNotConfigured s) /\
  (MAINTENANCE_MODE cfg = false ->
   truthy_str (SLACK_WEBHOOK_URL cfg) = true ->
   in_cooldown cfg (clock env (clock_reads s)) c s = true ->
   exists remaining : Z,
     send_slack_alert cfg env m c s =
     print (PCooldown remaining) (now_state env s)) /\
  (MAINTENANCE_MODE cfg = false ->
   truthy_str (SLACK_WEBHOOK_URL cfg) = true ->
   in_cooldown cfg (clock env (clock_reads s)) c s = false ->
   posted (send_slack_alert cfg env m c s) = posted s ++ [m]) /\
  (MAINTENANCE_MODE cfg = true ->
   forall (lines : list string) (s0 : State),
     posted (final (main_loop cfg env lines s0)) = posted s0).
Proof.
  split; [|split; [|split; [|split]]].
  - apply send_slack_alert_maintenance.
  - apply send_slack_alert_unconfigured.
  - intros H1 H2 H3. unfold in_cooldown in H3.
    destruct (last_alert_time s !! c) as [last|] eqn:E; [|done].
    apply Z.ltb_lt in H3. eexists.
    by apply (send_slack_alert_cooldown cfg env m c s last).
  - intros H1 H2 H3. rewrite send_slack_alert_attempt by done.
    by rewrite try_post_posted.
  - intros H lines s0. by apply main_loop_maintenance.
Qed.

(** Every status other than [0] is appended and counted. *)
Lemma track_request_appends data st s :
  upstream_status data = Some st -> st <> 0 ->
  request_window (track_request cfg data s) =
    deque_append (WINDOW_SIZE cfg) st (request_window s) /\
  request_count (track_request cfg data s) = request_count s + 1.
Proof.
  intros H Hne. unfold track_request. rewrite H. cbn [truthy_int].
  destruct (Z.eqb_spec st 0); done.
Qed.

Lemma main_step_tail_frame data s :
  let r := match track_error_rate cfg env (track_pool cfg env data s) with
           | Returned s3 => Returned (debug_output data s3)
           | Raised e s3 => Raised e s3
           end in
  request_window (final r) = request_window s /\
  request_count (final r) = request_count s.
Proof.
  cbv zeta.
  set (s2 := track_pool cfg env data s).
  assert (E2 : request_window s2 = request_window s /\
               request_count s2 = request_count s).
  { unfold s2, track_pool. destruct (truthy_str _); [|done].
    apply (detect_failover_frame cfg env). }
  assert (E3 : request_window (final (track_error_rate cfg env s2)) =
               request_window s2 /\
               request_count (final (track_error_rate cfg env s2)) =
               request_count s2).
  { unfold track_error_rate. destruct (_ <=? _); [|done].
    apply (check_error_rate_frame cfg env). }
  destruct E2 as [E2 E2'], E3 as [E3 E3'].
  destruct (track_error_rate cfg env s2) as [s3|e s3]; cbn [final] in *.
  - unfold debug_output.
    destruct (_ =? _); cbn [print request_window request_count];
      split; congruence.
  - split; congruence.
Qed.

(** C9. The loop does not track every status that is present: for the
    line [upstream_status=0] the parser returns the status [0], and the
    test of line 226 takes it for an absent one, so the window and the
    request counter stay as they were. *)
Theorem zero_upstream_status_not_tracked (s : State) :
  (exists data : RequestEvent,
     parse_log_line "upstream_status=0" = Ok data /\
     upstream_status data = Some 0) /\
  request_window (final (main_step cfg env "upstream_status=0" s)) =
    request_window s /\
  request_count (final (main_step cfg env "upstream_status=0" s)) =
    request_count s.
Proof.
  assert (Hparse : parse_log_line "upstream_status=0" =
            Ok {| pool := None; release := None; upstream_status := Some 0;
                  upstream := None; request_time := None;
                  upstream_time := None; status := None |})
    by (vm_compute; reflexivity).
  split; [eexists; split; [exact Hparse | reflexivity]|].
  unfold main_step. rewrite Hparse. cbv iota beta.
  set (data := {| pool := None; upstream_status := Some 0 |}).
  change (track_request cfg data s) with s.
  apply main_step_tail_frame.
Qed.

End Driver.

(** ** The error-rate estimator *)

Section Estimator.

Variable cfg : Config.
Variable env : Env.

(** The three regimes of [check_error_rate]. *)
Lemma check_error_rate_insufficient s :
  Z.of_nat (length (request_window s)) < WINDOW_SIZE cfg ->
  check_error_rate cfg env s = Returned s.
Proof.
  intros H. unfold check_error_rate. apply Z.ltb_lt in H. by rewrite H.
Qed.

Lemma check_error_rate_saturated s :
  WINDOW_SIZE cfg <= Z.of_nat (length (request_window s)) ->
  WINDOW_SIZE cfg <> 0 ->
  check_error_rate cfg env s =
  if PrimFloat.ltb (ERROR_RATE_THRESHOLD cfg)
       (error_rate_of (count_5xx (request_window s)) (WINDOW_SIZE cfg))
  then Returned (send_slack_alert cfg env (error_rate_message cfg env s)
                   "error_rate"
                   (print (PAlert (error_rate_message cfg env s))
                          (now_state env s)))
  else Returned s.
Proof.
  intros H Hne. unfold check_error_rate.
  apply Z.ltb_ge in H. rewrite H.
  apply Z.eqb_neq in Hne. rewrite Hne. cbv zeta.
  destruct (PrimFloat.ltb _ _); reflexivity.
Qed.

Lemma check_error_rate_zero_window s :
  WINDOW_SIZE cfg = 0 ->
  check_error_rate cfg env s = Raised ZeroDivisionError s.
Proof.
  intros H. unfold check_error_rate. rewrite H.
  destruct (Z.ltb_spec (Z.of_nat (length (request_window s))) 0); [lia|].
  reflexivity.
Qed.

End Estimator.

Lemma window_of_length ok err : length (window_of ok err) = (ok + err)%nat.
Proof. unfold window_of. by rewrite length_app, !repeat_length. Qed.

Lemma window_of_count ok err : count_5xx (window_of ok err) = Z.of_nat err.
Proof.
  unfold window_of, count_5xx. rewrite filter_app, length_app.
  assert (H1 : filter (fun st => negb (st =? 0) && (500 <=? st)) (repeat 200 ok) = []).
  { induction ok as [|n IH]; [reflexivity|]. cbn [repeat].
    rewrite filter_cons_False; [exact IH|]. intros H. exact H. }
  assert (H2 : filter (fun st => negb (st =? 0) && (500 <=? st)) (repeat 500 err)
               = repeat 500 err).
  { induction err as [|n IH]; [reflexivity|]. cbn [repeat].
    rewrite filter_cons_True; [by rewrite IH|]. exact I. }
  rewrite H1, H2, repeat_length. reflexivity.
Qed.

Lemma alert_posted_from_window (cfg : Config) (env : Env) (w : list Z) :
  MAINTENANCE_MODE cfg = false ->
  truthy_str (SLACK_WEBHOOK_URL cfg) = true ->
  WINDOW_SIZE cfg <= Z.of_nat (length w) -> WINDOW_SIZE cfg <> 0 ->
  PrimFloat.ltb (ERROR_RATE_THRESHOLD cfg)
    (error_rate_of (count_5xx w) (WINDOW_SIZE cfg)) = true ->
  posted (final (check_error_rate cfg env (window_state w))) =
  [error_rate_message cfg env (window_state w)].
Proof.
  intros H1 H2 Hlen Hne Hlt.
  rewrite check_error_rate_saturated by done.
  change (request_window (window_state w)) with w. rewrite Hlt. cbn [final].
  rewrite send_slack_alert_attempt by done.
  by rewrite try_post_posted.
Qed.

(** C3. With capacity 100 and threshold 7, a saturated window with seven
    5xx entries has the rate [100 * 7 / 100 = 7], which does not exceed the
    threshold; the code computes [(7 / 100) * 100] in binary64, finds it
    above [7.0] and posts the alert. *)
Theorem error_rate_equal_to_threshold_alerts (env : Env) :
  let cfg := with_window 100 (float_of_int 7) default_cfg in
  let s := window_state (window_of 93 7) in
  Z.of_nat (length (request_window s)) = WINDOW_SIZE cfg /\
  100 * count_5xx (request_window s) = 7 * WINDOW_SIZE cfg /\
  PrimFloat.ltb (ERROR_RATE_THRESHOLD cfg)
                (error_rate_of (count_5xx (request_window s)) (WINDOW_SIZE cfg))
    = true /\
  posted (final (check_error_rate cfg env s)) =
    [ErrorRateMsg (error_rate_of 7 100) (float_of_int 7) 7 100 (clock env 0)].
Proof.
  cbv zeta.
  split; [vm_compute; reflexivity|].
  split; [vm_compute; reflexivity|].
  split; [vm_compute; reflexivity|].
  rewrite alert_posted_from_window; [| reflexivity | reflexivity | | |].
  - unfold error_rate_message.
    change (request_window (window_state (window_of 93 7))) with (window_of 93 7).
    rewrite window_of_count. reflexivity.
  - rewrite window_of_length. vm_compute. discriminate.
  - vm_compute. discriminate.
  - rewrite window_of_count. vm_compute. reflexivity.
Qed.

(** The two figures of the default configuration: 5 errors in 200 give
    the rate 2.5 and the alert, 4 errors in 200 give 2.0 and no alert. *)
Example error_rate_2_5_percent_alerts (env : Env) :
  let s := window_state (window_of 195 5) in
  count_5xx (request_window s) = 5 /\
  error_rate_of 5 200 = error_rate_of 25 1000 /\
  posted (final (check_error_rate default_cfg env s)) =
    [ErrorRateMsg (error_rate_of 5 200) (float_of_int 2) 5 200 (clock env 0)].
Proof.
  cbv zeta.
  split; [exact (window_of_count 195 5)|].
  split; [vm_compute; reflexivity|].
  rewrite alert_posted_from_window; [| reflexivity | reflexivity | | |].
  - unfold error_rate_message.
    change (request_window (window_state (window_of 195 5))) with (window_of 195 5).
    rewrite window_of_count. reflexivity.
  - rewrite window_of_length. vm_compute. discriminate.
  - vm_compute. discriminate.
  - rewrite window_of_count. vm_compute. reflexivity.
Qed.

Example error_rate_2_percent_silent (env : Env) :
  let s := window_state (window_of 196 4) in
  count_5xx (request_window s) = 4 /\
  check_error_rate default_cfg env s = Returned s.
Proof.
  cbv zeta.
  split; [exact (window_of_count 196 4)|].
  rewrite check_error_rate_saturated.
  - change (request_window (window_state (window_of 196 4))) with (window_of 196 4).
    rewrite window_of_count.
    replace (PrimFloat.ltb _ _) with false by (vm_compute; reflexivity).
    reflexivity.
  - change (request_window (window_state (window_of 196 4))) with (window_of 196 4).
    rewrite window_of_length. vm_compute. discriminate.
  - vm_compute. discriminate.
Qed.
(** ** Worked instances *)

(** The lines [pool=blue] and [pool=green] parse to events that carry only
    the label. *)
Lemma parsed_event_with_pool_blue : parsed (event_with_pool "blue").
Proof. exists "pool=blue". reflexivity. Defined.

Lemma parsed_event_with_pool_green : parsed (event_with_pool "green").
Proof. exists "pool=green". reflexivity. Defined.

Lemma failover_sequence_two_alerts_witness :
  let step := track_pool default_cfg (env_ok 100) in
  let s3 := step (event_with_pool "green")
              (step (event_with_pool "green")
                 (step (event_with_pool "blue") initial_state)) in
  let s4 := step (event_with_pool "blue") s3 in
  last_pool s4 = Some "blue" /\
  failover_alerts (output s4) = [("blue", "green"); ("green", "blue")].
Proof.
  cbv zeta.
  apply (failover_sequence_two_alerts default_cfg (env_ok 100) initial_state
           (event_with_pool "blue") (event_with_pool "green")
           (event_with_pool "green") (event_with_pool "blue")
           "blue" "green" "blue").
  - exact parsed_event_with_pool_blue.
  - exact parsed_event_with_pool_green.
  - exact parsed_event_with_pool_green.
  - exact parsed_event_with_pool_blue.
  - reflexivity.
  - reflexivity.
  - reflexivity.
  - reflexivity.
  - discriminate.
  - discriminate.
  - reflexivity.
Defined.

Lemma failed_send_keeps_cooldown_clock_witness :
  let m := FailoverMsg "blue" "green" 0 in
  let s1 := send_slack_alert default_cfg (env_down 1) m "failover" initial_state in
  last_alert_time s1 = ∅ /\
  posted (send_slack_alert default_cfg (env_down 1) m "failover" s1) = [m; m].
Proof.
  cbv zeta.
  destruct (failed_send_keeps_cooldown_clock default_cfg (env_down 1)
              (FailoverMsg "blue" "green" 0) (FailoverMsg "blue" "green" 0)
              "failover" initial_state) as [Htable Hagain].
  - reflexivity.
  - discriminate.
  - split; [exact Htable|]. apply Hagain. vm_compute. discriminate.
Defined.

Lemma cooldown_per_category_witness :
  let m := FailoverMsg "blue" "green" 0 in
  let m' := FailoverMsg "green" "blue" 100000000 in
  let s1 := send_slack_alert default_cfg (env_ok 100) m "failover" initial_state in
  let s2 := send_slack_alert default_cfg (env_ok 100) m' "failover" s1 in
  clock (env_ok 100) (clock_reads s1) - clock (env_ok 100) 0 = 100 * microseconds /\
  posted s1 = [m] /\ posted s2 = [m] /\
  output s2 = [PSent "failover"; PCooldown (200 * microseconds)].
Proof.
  cbv zeta.
  destruct (cooldown_per_category default_cfg (env_ok 100)
              (FailoverMsg "blue" "green" 0)
              (FailoverMsg "green" "blue" 100000000)
              "failover" initial_state)
    as ((Hposted & Hentry) & Hcool & _); try reflexivity.
  destruct (Hcool (send_slack_alert default_cfg (env_ok 100)
                     (FailoverMsg "blue" "green" 0) "failover" initial_state))
    as (Hp & _ & Hout); [exact Hentry | reflexivity |].
  split; [reflexivity|]. split; [exact Hposted|].
  split; [rewrite Hp; exact Hposted | rewrite Hout; reflexivity].
Defined.

Lemma first_pool_sets_baseline_witness :
  track_pool default_cfg (env_ok 100) (event_with_pool "green") initial_state =
  print (PBaseline "green") (set_last_pool (Some "green") initial_state).
Proof.
  apply (first_pool_sets_baseline default_cfg (env_ok 100) initial_state
           (event_with_pool "green") "green").
  - exact parsed_event_with_pool_green.
  - reflexivity.
  - reflexivity.
Defined.

Lemma pool_change_recorded_once_witness :
  let s := set_last_pool (Some "blue") initial_state in
  let s1 := detect_failover maintenance_cfg (env_down 1) (Some "green") s in
  last_pool s1 = Some "green" /\ posted s1 = [] /\
  detect_failover maintenance_cfg (env_down 1) (Some "green") s1 = s1.
Proof.
  cbv zeta.
  destruct (pool_change_recorded_once maintenance_cfg (env_down 1)
              (set_last_pool (Some "blue") initial_state) "blue" "green")
    as (Hlast & _ & Hiter & _).
  - reflexivity.
  - discriminate.
  - discriminate.
  - split; [exact Hlast|]. split; [reflexivity|]. exact (Hiter 1%nat).
Defined.

Lemma suppression_order_witness :
  send_slack_alert maintenance_cfg (env_ok 1) (FailoverMsg "blue" "green" 0)
    "failover" initial_state =
  print (PMaintenance "failover") initial_state /\
  posted (final (main_loop maintenance_cfg (env_ok 1)
                   ["pool=blue"; "pool=green"; "upstream_status=503"]
                   initial_state)) = [].
Proof.
  destruct (suppression_order maintenance_cfg (env_ok 1)
              (FailoverMsg "blue" "green" 0) "failover" initial_state)
    as (Hmaint & _ & _ & _ & Hrun).
  split; [exact (Hmaint eq_refl) | exact (Hrun eq_refl _ initial_state)].
Defined.

(** * Further properties *)

(** ** What a field of the parser holds *)

Lemma span_app p s :
  s = (fst (Regex.span p s) ++ snd (Regex.span p s))%string.
Proof.
  induction s as [|c s IH]; [reflexivity|]. cbn [Regex.span].
  destruct (p c); [|reflexivity].
  destruct (Regex.span p s) as [run tl]. cbn [fst snd] in *.
  change (String c s = String c (run ++ tl)%string). by rewrite <- IH.
Qed.

Lemma span_all p s : all_chars p (fst (Regex.span p s)) = true.
Proof.
  induction s as [|c s IH]; [reflexivity|]. cbn [Regex.span].
  destruct (p c) eqn:E; [|reflexivity].
  destruct (Regex.span p s) as [run tl]. cbn [fst all_chars] in *.
  by rewrite E, IH.
Qed.

Lemma span_maximal p s : head_in p (snd (Regex.span p s)) = false.
Proof.
  induction s as [|c s IH]; [reflexivity|]. cbn [Regex.span].
  destruct (p c) eqn:E.
  - destruct (Regex.span p s) as [run tl]. exact IH.
  - cbn [snd head_in]. exact E.
Qed.

Lemma strip_prefix_some key s rest :
  Regex.strip_prefix key s = Some rest -> s = (key ++ rest)%string.
Proof.
  revert s. induction key as [|k key IH]; intros s; cbn [Regex.strip_prefix].
  - by intros [= ->].
  - destruct s as [|c s]; [discriminate|].
    destruct (Ascii.eqb_spec k c) as [->|]; [|discriminate].
    intros H. change (String c s = String c (key ++ rest)%string).
    by rewrite (IH s H).
Qed.

Lemma match_key_some key cls s g :
  Regex.match_key key cls s = Some g ->
  g <> EmptyString /\ all_chars cls g = true /\
  exists post : string,
    s = (key ++ g ++ post)%string /\ head_in cls post = false.
Proof.
  intros H. split; [by apply (match_key_nonempty key cls s)|].
  unfold Regex.match_key in H.
  destruct (Regex.strip_prefix key s) as [rest|] eqn:E; [|discriminate].
  apply strip_prefix_some in E.
  pose proof (span_app cls rest) as Happ.
  pose proof (span_all cls rest) as Hall.
  pose proof (span_maximal cls rest) as Hmax.
  destruct (fst (Regex.span cls rest)) as [|c run]; [discriminate|].
  injection H as <-. split; [exact Hall|].
  exists (snd (Regex.span cls rest)). split; [|exact Hmax].
  by rewrite E, Happ at 1.
Qed.

Lemma search_match_key_some key cls line g :
  Regex.search (Regex.match_key key cls) line = Some g ->
  g <> EmptyString /\ all_chars cls g = true /\
  exists pre post : string,
    line = (pre ++ key ++ g ++ post)%string /\ head_in cls post = false.
Proof.
  intros H. destruct (search_some _ _ _ H) as (pre & rest & -> & Hm).
  destruct (match_key_some _ _ _ _ Hm) as (Hne & Hall & post & -> & Hpost).
  split; [exact Hne|]. split; [exact Hall|]. by exists pre, post.
Qed.






Lemma digit_value_range c : Regex.is_digit c = true -> 0 <= digit_value c <= 9.
Proof.
  unfold Regex.is_digit, Regex.in_range, digit_value. intros H.
  apply andb_prop in H as [H1 H2].
  apply N.leb_le in H1. apply N.leb_le in H2. lia.
Qed.

Lemma py_int_fold_range (l : list ascii) (acc : Z) :
  Forall (fun c => Regex.is_digit c = true) l ->
  let v := fold_left (fun a c => 10 * a + digit_value c) l acc in
  acc * 10 ^ Z.of_nat (length l) <= v < (acc + 1) * 10 ^ Z.of_nat (length l).
Proof.
  intros Hl. revert acc. induction Hl as [|c l Hc Hl IH]; intros acc; cbv zeta.
  - cbn [fold_left length]. change (10 ^ Z.of_nat 0) with 1. lia.
  - cbn [fold_left length]. specialize (IH (10 * acc + digit_value c)).
    cbv zeta in IH. pose proof (digit_value_range c Hc) as Hd.
    rewrite Nat2Z.inj_succ, Z.pow_succ_r by lia.
    assert (0 < 10 ^ Z.of_nat (length l)) by (apply Z.pow_pos_nonneg; lia).
    nia.
Qed.

Lemma all_chars_Forall p s :
  all_chars p s = true -> Forall (fun c => p c = true) (list_ascii_of_string s).
Proof.
  induction s as [|c s IH]; cbn [all_chars list_ascii_of_string]; [constructor|].
  intros H. apply andb_prop in H as [Hc Hs]. constructor; auto.
Qed.

Lemma py_int_range s :
  all_chars Regex.is_digit s = true ->
  0 <= py_int s < 10 ^ Z.of_nat (String.length s).
Proof.
  intros H. pose proof (py_int_fold_range _ 0 (all_chars_Forall _ _ H)) as Hr.
  cbv zeta in Hr. unfold py_int.
  replace (String.length s) with (length (list_ascii_of_string s)); [lia|].
  clear. induction s as [|c s IH]; cbn; congruence.
Qed.

Lemma match_status_some s g :
  Regex.match_status s = Some g ->
  all_chars Regex.is_digit g = true /\ String.length g = 3%nat.
Proof.
  unfold Regex.match_status. destruct s as [|q rest]; [discriminate|].
  destruct (Regex.is_dquote q); [|discriminate].
  destruct (Regex.span Regex.is_space rest) as [[|w ws] [|a [|b [|c [|d tl]]]]];
    try discriminate.
  destruct (Regex.is_digit a) eqn:Ha; [|discriminate].
  destruct (Regex.is_digit b) eqn:Hb; [|discriminate].
  destruct (Regex.is_digit c) eqn:Hc; [|discriminate].
  destruct (Regex.is_space d); [|discriminate].
  intros [= <-]. cbn [all_chars String.length]. by rewrite Ha, Hb, Hc.
Qed.

Lemma parse_log_line_fields line data :
  parse_log_line line = Ok data ->
  pool data = Regex.search (Regex.match_key "pool=" Regex.is_word) line /\
  release data =
    Regex.search (Regex.match_key "release=" Regex.is_release_char) line /\
  upstream_status data =
    py_int <$> Regex.search (Regex.match_key "upstream_status=" Regex.is_digit) line /\
  upstream data =
    Regex.search (Regex.match_key "upstream=" Regex.is_addr_char) line /\
  float_field
    (Regex.search (Regex.match_key "request_time=" Regex.is_time_char) line)
    = Ok (request_time data) /\
  float_field
    (Regex.search (Regex.match_key "upstream_time=" Regex.is_time_char) line)
    = Ok (upstream_time data) /\
  status data = py_int <$> Regex.search Regex.match_status line.
Proof.
  unfold parse_log_line.
  destruct (float_field _) as [rt|]; [|discriminate]. cbn [rbind].
  destruct (float_field _) as [ut|]; [|discriminate]. cbn [rbind].
  intros [= <-]. cbn. repeat split.
Qed.

(** X2. The two status codes of an event are in range: the client status
    is between 0 and 999, and the upstream status is never negative. *)
Theorem parsed_status_ranges (line : string) (data : RequestEvent) :
  parse_log_line line = Ok data ->
  (forall n : Z, status data = Some n -> 0 <= n <= 999) /\
  (forall n : Z, upstream_status data = Some n -> 0 <= n).
Proof.
  intros Hparse.
  destruct (parse_log_line_fields _ _ Hparse) as (_ & _ & Hus & _ & _ & _ & Hst).
  split; intros n Hn.
  - rewrite Hst in Hn.
    destruct (Regex.search Regex.match_status line) as [g|] eqn:E;
      [|discriminate].
    injection Hn as <-.
    destruct (search_some _ _ _ E) as (pre & rest & _ & Hm).
    destruct (match_status_some _ _ Hm) as [Hall Hlen].
    pose proof (py_int_range g Hall) as Hr. rewrite Hlen in Hr.
    change (10 ^ Z.of_nat 3) with 1000 in Hr. lia.
  - rewrite Hus in Hn.
    destruct (Regex.search _ line) as [g|] eqn:E; [|discriminate].
    injection Hn as <-.
    destruct (search_match_key_some _ _ _ _ E) as (_ & Hall & _).
    pose proof (py_int_range g Hall). lia.
Qed.

(** ** When the parser raises *)












(** ** The detector over a whole sequence of labels *)

Section DetectorRuns.

Variable cfg : Config.
Variable env : Env.

Lemma send_slack_alert_posted_le m c s :
  (length (posted (send_slack_alert cfg env m c s)) <= S (length (posted s)))%nat /\
  (length (posted s) <= length (posted (send_slack_alert cfg env m c s)))%nat.
Proof.
  destruct (send_slack_alert_posted_cases cfg env m c s)
    as [[-> _]|(_ & _ & _ & ->)]; [lia|].
  rewrite length_app. cbn [length]. lia.
Qed.

Lemma detect_failover_change_posted p q s :
  q <> EmptyString -> q <> p -> last_pool s = Some p ->
  (length (posted s) <= length (posted (detect_failover cfg env (Some q) s))
   <= S (length (posted s)))%nat.
Proof.
  intros Hq Hne Hs. rewrite (detect_failover_change cfg env p q s) by done.
  cbv zeta. cbn [posted set_last_pool].
  pose proof (send_slack_alert_posted_le
                (FailoverMsg p q (clock env (clock_reads s))) "failover"
                (print (PAlert (FailoverMsg p q (clock env (clock_reads s))))
                       (now_state env s))) as H.
  exact (conj (proj2 H) (proj1 H)).
Qed.

Lemma last_cons_same {A : Type} (l : list A) (a d : A) :
  List.last (a :: l) d = List.last l a.
Proof.
  revert a d. induction l as [|b l IH]; intros a d; [reflexivity|].
  change (List.last (b :: l) d = List.last (b :: l) a).
  by rewrite (IH b d), (IH b a).
Qed.

Lemma feed_pools_established (ps : list string) (p : string) (s : State) :
  Forall (fun q => q <> EmptyString) ps ->
  last_pool s = Some p ->
  last_pool (feed_pools cfg env ps s) = Some (List.last ps p) /\
  failover_alerts (output (feed_pools cfg env ps s)) =
    failover_alerts (output s) ++ changes p ps /\
  (length (posted s) <= length (posted (feed_pools cfg env ps s))
   <= length (posted s) + length (changes p ps))%nat.
Proof.
  intros Hps. revert p s.
  induction Hps as [|q ps Hq Hps IH]; intros p s Hs.
  - cbn [feed_pools fold_left changes List.last length].
    rewrite app_nil_r. repeat split; [done|lia|lia].
  - unfold feed_pools in *. cbn [fold_left changes].
    destruct (String.eqb_spec q p) as [->|Hne].
    + rewrite (detect_failover_steady cfg env p s Hs).
      destruct (IH p s Hs) as (IH1 & IH2 & IH3).
      split; [|split; [exact IH2 | exact IH3]].
      by rewrite IH1, last_cons_same.
    + destruct (detect_failover_change_alerts cfg env p q s Hq Hne Hs) as [L A].
      pose proof (detect_failover_change_posted p q s Hq Hne Hs) as P.
      destruct (IH q _ L) as (IH1 & IH2 & IH3).
      split; [|split].
      * by rewrite IH1, last_cons_same.
      * rewrite IH2, A, <- app_assoc. reflexivity.
      * cbn [length]. lia.
Qed.

(** X4. Fed any sequence of non-empty pool labels from the unestablished
    state, the detector takes the first label as the baseline and then
    raises exactly one alert for each change between consecutive labels, in
    order; it ends on the last label, and it posts at most one message for
    each alert. *)
Theorem failover_alerts_are_the_changes
    (p0 : string) (ps : list string) (s : State) :
  Forall (fun q => q <> EmptyString) (p0 :: ps) ->
  last_pool s = None ->
  let s' := feed_pools cfg env (p0 :: ps) s in
  last_pool s' = Some (List.last ps p0) /\
  failover_alerts (output s') = failover_alerts (output s) ++ changes p0 ps /\
  (length (posted s) <= length (posted s')
   <= length (posted s) + length (changes p0 ps))%nat.
Proof.
  intros Hall Hs. cbv zeta. inversion Hall as [|? ? Hp0 Hps]; subst.
  unfold feed_pools. cbn [fold_left].
  rewrite (detect_failover_baseline cfg env p0 s Hp0 Hs).
  set (s1 := print (PBaseline p0) (set_last_pool (Some p0) s)).
  destruct (feed_pools_established ps p0 s1 Hps eq_refl) as (H1 & H2 & H3).
  unfold feed_pools in *. split; [exact H1|]. split; [|exact H3].
  rewrite H2. f_equal. unfold failover_alerts, s1, print. cbn [output].
  rewrite omap_app. apply app_nil_r.
Qed.

End DetectorRuns.

Lemma failover_alerts_are_the_changes_witness :
  failover_alerts
    (output (feed_pools default_cfg (env_ok 100)
               ["blue"; "blue"; "green"; "green"; "blue"] initial_state)) =
  [("blue", "green"); ("green", "blue")].
Proof.
  destruct (failover_alerts_are_the_changes default_cfg (env_ok 100)
              "blue" ["blue"; "green"; "green"; "blue"] initial_state)
    as (_ & H & _).
  - repeat constructor; discriminate.
  - reflexivity.
  - exact H.
Defined.

(** ** The loop as a whole *)

Section LoopRuns.

Variable cfg : Config.
Variable env : Env.


Lemma track_request_counted data s :
  0 <= WINDOW_SIZE cfg -> counted cfg s -> counted cfg (track_request cfg data s).
Proof.
  intros HW [Hc Hl]. unfold track_request.
  destruct (truthy_int _); [|done].
  destruct (upstream_status data) as [st|]; [|done].
  unfold counted. cbn [request_count request_window set_request_count
                       set_request_window].
  unfold deque_append. rewrite length_app. cbn [length].
  destruct (Z.ltb_spec (WINDOW_SIZE cfg)
              (Z.of_nat (length (request_window s) + 1))).
  - rewrite tail_drop, length_drop, length_app. cbn [length]. lia.
  - rewrite length_app. cbn [length]. lia.
Qed.

Lemma main_step_counted line s :
  0 <= WINDOW_SIZE cfg -> counted cfg s -> counted cfg (final (main_step cfg env line s)).
Proof.
  intros HW Hs. unfold main_step.
  destruct (parse_log_line line) as [data|e]; [|done].
  pose proof (track_request_counted data s HW Hs) as H1.
  destruct (main_step_tail_frame cfg env data (track_request cfg data s))
    as [Hw Hc].
  cbv zeta in Hw, Hc. unfold counted in *. by rewrite Hw, Hc.
Qed.

Lemma main_loop_counted lines s :
  0 <= WINDOW_SIZE cfg -> counted cfg s -> counted cfg (final (main_loop cfg env lines s)).
Proof.
  intros HW. revert s. induction lines as [|line rest IH]; intros s Hs; [done|].
  cbn [main_loop]. pose proof (main_step_counted line s HW Hs) as H1.
  destruct (main_step cfg env line s) as [s'|e s']; cbn [final] in *.
  - by apply IH.
  - exact H1.
Qed.

(** X6. From process start, after any lines, the request counter is not
    negative and the window holds [min (request_count, WINDOW_SIZE)]
    entries; so whenever the loop calls [check_error_rate] (the counter has
    reached the window size) the window is full. *)
Theorem window_follows_counter (lines : list string) (s0 : State) :
  startup cfg = Returned s0 ->
  let s := final (main_loop cfg env lines s0) in
  0 <= request_count s /\
  Z.of_nat (length (request_window s)) =
    Z.min (request_count s) (WINDOW_SIZE cfg) /\
  (WINDOW_SIZE cfg <= request_count s ->
   Z.of_nat (length (request_window s)) = WINDOW_SIZE cfg).
Proof.
  unfold startup. destruct (Z.ltb_spec (WINDOW_SIZE cfg) 0) as [|HW]; [done|].
  intros [= <-]. cbv zeta.
  assert (H0 : counted cfg initial_state).
  { unfold counted. cbn [initial_state request_count request_window length]. lia. }
  destruct (main_loop_counted lines initial_state HW H0) as [Hc Hl].
  split; [exact Hc|]. split; [exact Hl|]. lia.
Qed.

Lemma track_request_count data s :
  request_count s <= request_count (track_request cfg data s)
  <= request_count s + 1.
Proof.
  unfold track_request. destruct (truthy_int _); [|lia].
  destruct (upstream_status data); cbn [request_count set_request_count]; lia.
Qed.

Lemma main_step_count line s :
  request_count s <= request_count (final (main_step cfg env line s))
  <= request_count s + 1.
Proof.
  unfold main_step. destruct (parse_log_line line) as [data|e]; [|cbn [final]; lia].
  pose proof (track_request_count data s) as H1.
  destruct (main_step_tail_frame cfg env data (track_request cfg data s))
    as [_ Hc].
  cbv zeta in Hc. rewrite Hc. exact H1.
Qed.

Lemma main_loop_count lines s :
  request_count s <= request_count (final (main_loop cfg env lines s))
  <= request_count s + Z.of_nat (length lines).
Proof.
  revert s. induction lines as [|line rest IH]; intros s.
  - cbn [main_loop final length]. lia.
  - cbn [main_loop length]. pose proof (main_step_count line s) as H1.
    destruct (main_step cfg env line s) as [s'|e s']; cbn [final] in *.
    + specialize (IH s'). lia.
    + cbn [print request_count]. lia.
Qed.

(** X7. With a window size of 0 every line that parses makes the loop
    raise [ZeroDivisionError]: the division of line 155 is reached with an
    empty window. *)
Theorem zero_window_size_raises (line : string) (data : RequestEvent) (s : State) :
  WINDOW_SIZE cfg = 0 -> 0 <= request_count s ->
  parse_log_line line = Ok data ->
  exists s' : State,
    main_step cfg env line s = Raised ZeroDivisionError s' /\
    forall rest : list string,
      main_loop cfg env (line :: rest) s =
      Raised ZeroDivisionError (print (PFatal ZeroDivisionError) s').
Proof.
  intros HW Hc Hparse.
  set (s2 := track_pool cfg env data (track_request cfg data s)).
  assert (Hc2 : 0 <= request_count s2).
  { unfold s2, track_pool. pose proof (track_request_count data s) as H1.
    destruct (truthy_str _); [|lia].
    rewrite (proj2 (detect_failover_frame cfg env _ _)). lia. }
  assert (Hstep : main_step cfg env line s = Raised ZeroDivisionError s2).
  { unfold main_step. rewrite Hparse. cbv zeta. fold s2.
    unfold track_error_rate. rewrite HW.
    destruct (Z.leb_spec 0 (request_count s2)) as [_|]; [|lia].
    rewrite (check_error_rate_zero_window cfg env s2 HW). reflexivity. }
  exists s2. split; [exact Hstep|]. intros rest. cbn [main_loop].
  by rewrite Hstep.
Qed.

End LoopRuns.

Section LoopAlerts.

Variable cfg : Config.
Variable env : Env.

Lemma error_rate_alerts_snoc out p :
  error_rate_alert_of p = None ->
  error_rate_alerts (out ++ [p]) = error_rate_alerts out.
Proof.
  intros H. unfold error_rate_alerts. rewrite omap_app.
  replace (omap error_rate_alert_of [p]) with (@nil (Z * Z));
    [apply app_nil_r|].
  simpl. by rewrite H.
Qed.

Lemma try_post_error_rate_alerts t c m s :
  error_rate_alerts (output (try_post env t c m s)) = error_rate_alerts (output s).
Proof.
  unfold try_post, post. cbv beta iota zeta.
  destruct (webhook env (length (posted s))) as [code|];
    [destruct (code =? 200)|];
    cbn [output print set_last_alert_time]; by apply error_rate_alerts_snoc.
Qed.

Lemma send_slack_alert_error_rate_alerts m c s :
  error_rate_alerts (output (send_slack_alert cfg env m c s)) =
  error_rate_alerts (output s).
Proof.
  destruct (send_slack_alert_cases cfg env m c s) as [-> | [-> | [[r ->] | ->]]].
  - by apply error_rate_alerts_snoc.
  - by apply error_rate_alerts_snoc.
  - unfold print, now_state, now. cbn [output snd].
    by apply error_rate_alerts_snoc.
  - exact (try_post_error_rate_alerts _ c m (now_state env s)).
Qed.

Lemma detect_failover_error_rate_alerts p s :
  error_rate_alerts (output (detect_failover cfg env p s)) =
  error_rate_alerts (output s).
Proof.
  unfold detect_failover.
  destruct p as [[|a p]|]; try done.
  destruct (last_pool s) as [previous|].
  - destruct (negb _); [|done].
    unfold now. cbv beta iota zeta. cbn [set_last_pool output].
    rewrite send_slack_alert_error_rate_alerts.
    unfold print. cbn [output]. by apply error_rate_alerts_snoc.
  - unfold print, set_last_pool. cbn [output]. by apply error_rate_alerts_snoc.
Qed.

Lemma main_step_below_capacity line s :
  request_count (final (main_step cfg env line s)) < WINDOW_SIZE cfg ->
  error_rate_alerts (output (final (main_step cfg env line s))) =
  error_rate_alerts (output s).
Proof.
  unfold main_step. destruct (parse_log_line line) as [data|e]; [|done].
  set (s1 := track_request cfg data s).
  assert (O1 : output s1 = output s).
  { unfold s1, track_request. destruct (truthy_int _); [|done].
    by destruct (upstream_status data). }
  set (s2 := track_pool cfg env data s1).
  assert (O2 : error_rate_alerts (output s2) = error_rate_alerts (output s1)).
  { unfold s2, track_pool. destruct (truthy_str _); [|done].
    apply detect_failover_error_rate_alerts. }
  destruct (main_step_tail_frame cfg env data s1) as [_ Hc]. cbv zeta in Hc.
  fold s2 in Hc. rewrite Hc. intros Hlt.
  assert (C2 : request_count s2 = request_count s1).
  { unfold s2, track_pool. destruct (truthy_str _); [|done].
    apply (detect_failover_frame cfg env). }
  unfold track_error_rate.
  destruct (Z.leb_spec (WINDOW_SIZE cfg) (request_count s2)) as [|_]; [lia|].
  cbn [final]. unfold debug_output.
  destruct (_ =? _).
  - unfold print. cbn [output]. rewrite error_rate_alerts_snoc by done.
    by rewrite O2, O1.
  - by rewrite O2, O1.
Qed.

(** X8. As long as the request counter is below the window size no
    high-error-rate alert is raised: a run that ends with fewer than
    [WINDOW_SIZE] tracked requests has printed none. *)
Theorem no_error_rate_alert_before_saturation (lines : list string) (s : State) :
  request_count (final (main_loop cfg env lines s)) < WINDOW_SIZE cfg ->
  error_rate_alerts (output (final (main_loop cfg env lines s))) =
  error_rate_alerts (output s).
Proof.
  revert s. induction lines as [|line rest IH]; intros s; [done|].
  cbn [main_loop].
  pose proof (main_step_below_capacity line s) as Hstep.
  destruct (main_step cfg env line s) as [s'|e s'] eqn:E; cbn [final] in *.
  - intros Hlt. pose proof (main_loop_count cfg env rest s') as Hmono.
    rewrite (IH s' Hlt). apply Hstep. lia.
  - cbn [print request_count output]. intros Hlt.
    rewrite error_rate_alerts_snoc by done. by apply Hstep.
Qed.

End LoopAlerts.

Lemma no_error_rate_alert_before_saturation_witness :
  error_rate_alerts
    (output (final (main_loop default_cfg (env_ok 1)
                      ["upstream_status=500"; "upstream_status=502"]
                      initial_state))) = [].
Proof.
  apply (no_error_rate_alert_before_saturation default_cfg (env_ok 1)
           ["upstream_status=500"; "upstream_status=502"] initial_state).
  pose proof (main_loop_count default_cfg (env_ok 1)
                ["upstream_status=500"; "upstream_status=502"] initial_state)
    as H.
  cbn [length initial_state request_count] in H.
  change (WINDOW_SIZE default_cfg) with 200. lia.
Defined.

Section LoopState.

Variable cfg : Config.
Variable env : Env.

Lemma detect_failover_sets_pool q s :
  q <> EmptyString -> last_pool (detect_failover cfg env (Some q) s) = Some q.
Proof.
  intros Hq. unfold detect_failover. destruct q as [|c q]; [done|].
  destruct (last_pool s) as [previous|] eqn:E; [|reflexivity].
  destruct (String.eqb_spec (String c q) previous) as [->|Hne];
    cbn [negb]; [exact E|].
  unfold now. cbv beta iota zeta. reflexivity.
Qed.

Lemma main_step_last_pool line data s :
  parse_log_line line = Ok data ->
  last_pool (final (main_step cfg env line s)) =
  match pool data with
  | Some q => Some q
  | None => last_pool s
  end.
Proof.
  intros Hparse. unfold main_step. rewrite Hparse. cbv zeta.
  set (s1 := track_request cfg data s).
  assert (L1 : last_pool s1 = last_pool s).
  { unfold s1, track_request. destruct (truthy_int _); [|done].
    by destruct (upstream_status data). }
  set (s2 := track_pool cfg env data s1).
  assert (L2 : last_pool s2 = match pool data with
                              | Some q => Some q
                              | None => last_pool s
                              end).
  { unfold s2, track_pool. destruct (pool data) as [q|] eqn:Hp.
    - assert (Hd : parsed data) by (by exists line).
      pose proof (parsed_pool_truthy data Hd q Hp) as Ht.
      rewrite Hp in Ht. rewrite Ht. apply detect_failover_sets_pool.
      by destruct q.
    - cbn [truthy_str]. exact L1. }
  assert (L3 : last_pool (final (track_error_rate cfg env s2)) = last_pool s2).
  { unfold track_error_rate. destruct (_ <=? _); [|done].
    apply (check_error_rate_frame cfg env). }
  destruct (track_error_rate cfg env s2) as [s3|e s3]; cbn [final] in *.
  - unfold debug_output. destruct (_ =? _); cbn [print last_pool]; congruence.
  - congruence.
Qed.

(** X9. After a run that returns, [last_pool] is the pool label of the
    last line that carried one, and it is unchanged when no line did: the
    detector always holds the most recent label, whether or not the alerts
    for the changes were delivered. *)
Theorem last_pool_is_latest_label (lines : list string) (s s' : State) :
  main_loop cfg env lines s = Returned s' ->
  last_pool s' = List.last (Some <$> pool_labels lines) (last_pool s).
Proof.
  revert s. induction lines as [|line rest IH]; intros s.
  - by intros [= <-].
  - cbn [main_loop].
    destruct (main_step cfg env line s) as [s1|e s1] eqn:E; [|discriminate].
    intros Hrun. rewrite (IH s1 Hrun).
    unfold pool_labels. cbn [omap list_omap]. unfold pool_of_line at 2.
    destruct (parse_log_line line) as [data|e] eqn:Hparse.
    + pose proof (main_step_last_pool line data s Hparse) as Hl.
      rewrite E in Hl. cbn [final] in Hl. rewrite Hl.
      destruct (pool data) as [q|]; [|reflexivity].
      cbn [fmap list_fmap]. by rewrite last_cons_same.
    + unfold main_step in E. rewrite Hparse in E. discriminate.
Qed.

End LoopState.

Section LoopDispatch.

Variable cfg : Config.
Variable env : Env.

(** The cooldown table after a dispatch: unchanged, or with the reading of
    the clock recorded for the category. *)
Lemma send_slack_alert_table m c s :
  last_alert_time (send_slack_alert cfg env m c s) = last_alert_time s \/
  (MAINTENANCE_MODE cfg = false /\ truthy_str (SLACK_WEBHOOK_URL cfg) = true /\
   last_alert_time (send_slack_alert cfg env m c s) =
     <[c := clock env (clock_reads s)]> (last_alert_time s)).
Proof.
  destruct (send_slack_alert_posted_cases cfg env m c s)
    as [[_ H]|(H1 & H2 & H3 & _)]; [by left|].
  rewrite (send_slack_alert_attempt cfg env m c s H1 H2 H3).
  unfold try_post, post. cbv beta iota zeta.
  destruct (webhook env _) as [code|]; [|by left].
  destruct (code =? 200); [|by left].
  right. repeat split; done.
Qed.

(** What one iteration does to the cooldown table and to the posts. *)
Lemma main_step_dispatch line s :
  let s' := final (main_step cfg env line s) in
  (forall k, is_Some (last_alert_time s' !! k) ->
             is_Some (last_alert_time s !! k) \/
             k = "failover" \/ k = "error_rate") /\
  (truthy_str (SLACK_WEBHOOK_URL cfg) = false ->
   posted s' = posted s /\ last_alert_time s' = last_alert_time s).
Proof.
  cbv zeta. unfold main_step.
  destruct (parse_log_line line) as [data|e]; [|cbn [final]; by auto].
  set (s1 := track_request cfg data s).
  assert (E1 : posted s1 = posted s /\ last_alert_time s1 = last_alert_time s).
  { unfold s1, track_request. destruct (truthy_int _); [|done].
    by destruct (upstream_status data). }
  destruct E1 as [P1 T1].
  set (s2 := track_pool cfg env data s1).
  assert (E2 : (forall k, is_Some (last_alert_time s2 !! k) ->
                          is_Some (last_alert_time s1 !! k) \/ k = "failover") /\
               (truthy_str (SLACK_WEBHOOK_URL cfg) = false ->
                posted s2 = posted s1 /\ last_alert_time s2 = last_alert_time s1)).
  { unfold s2, track_pool. destruct (truthy_str (pool data)); [|by auto].
    unfold detect_failover.
    destruct (pool data) as [[|a p]|]; try (by auto).
    destruct (last_pool s1) as [previous|]; [|by auto].
    destruct (negb _); [|by auto].
    unfold now. cbv beta iota zeta. cbn [set_last_pool last_alert_time posted].
    set (m := FailoverMsg previous (String a p) (clock env (clock_reads s1))).
    set (s1' := print (PAlert m) _).
    split.
    - intros k Hk.
      destruct (send_slack_alert_table m "failover" s1') as [Ht|(_ & _ & Ht)];
        rewrite Ht in Hk; [by left|].
      destruct (decide (k = "failover")) as [->|Hne]; [by right|].
      left. by rewrite lookup_insert_ne in Hk.
    - intros Hurl.
      destruct (send_slack_alert_posted_cases cfg env m "failover" s1')
        as [[Hp Ht]|(_ & H2 & _)]; [done | congruence]. }
  destruct E2 as [K2 U2].
  assert (E3 : (forall k, is_Some (last_alert_time
                                     (final (track_error_rate cfg env s2)) !! k) ->
                          is_Some (last_alert_time s2 !! k) \/ k = "error_rate") /\
               (truthy_str (SLACK_WEBHOOK_URL cfg) = false ->
                posted (final (track_error_rate cfg env s2)) = posted s2 /\
                last_alert_time (final (track_error_rate cfg env s2)) =
                  last_alert_time s2)).
  { unfold track_error_rate. destruct (_ <=? _); [|by auto].
    unfold check_error_rate.
    destruct (_ <? _); [by auto|].
    destruct (WINDOW_SIZE cfg =? 0); [by auto|].
    cbv zeta. destruct (PrimFloat.ltb _ _); [|by auto].
    unfold now. cbv beta iota. cbn [final].
    match goal with
    | |- context [send_slack_alert cfg env ?m0 "error_rate" ?s0] =>
        set (s2' := s0); set (m := m0)
    end.
    split.
    - intros k Hk.
      destruct (send_slack_alert_table m "error_rate" s2') as [Ht|(_ & _ & Ht)];
        rewrite Ht in Hk; [by left|].
      destruct (decide (k = "error_rate")) as [->|Hne]; [by right|].
      left. by rewrite lookup_insert_ne in Hk.
    - intros Hurl.
      destruct (send_slack_alert_posted_cases cfg env m "error_rate" s2')
        as [[Hp Ht]|(_ & H2 & _)]; [done | congruence]. }
  destruct E3 as [K3 U3].
  assert (E4 : posted (final
                 match track_error_rate cfg env s2 with
                 | Returned s3 => Returned (debug_output data s3)
                 | Raised e s3 => Raised e s3
                 end) = posted (final (track_error_rate cfg env s2)) /\
               last_alert_time (final
                 match track_error_rate cfg env s2 with
                 | Returned s3 => Returned (debug_output data s3)
                 | Raised e s3 => Raised e s3
                 end) = last_alert_time (final (track_error_rate cfg env s2))).
  { destruct (track_error_rate cfg env s2) as [s3|e s3]; cbn [final]; [|done].
    unfold debug_output. by destruct (_ =? _). }
  destruct E4 as [P4 T4]. rewrite P4, T4. split.
  - intros k Hk. destruct (K3 k Hk) as [Hk2 | ->]; [|by auto].
    destruct (K2 k Hk2) as [Hk1 | ->]; [|by auto].
    left. by rewrite <- T1.
  - intros Hurl. destruct (U3 Hurl) as [-> ->]. destruct (U2 Hurl) as [-> ->].
    done.
Qed.

(** X10. With no webhook configured, no run of the loop posts anything or
    touches the cooldown table, whatever the lines and the starting
    state. *)
Theorem no_webhook_no_post (lines : list string) (s : State) :
  truthy_str (SLACK_WEBHOOK_URL cfg) = false ->
  posted (final (main_loop cfg env lines s)) = posted s /\
  last_alert_time (final (main_loop cfg env lines s)) = last_alert_time s.
Proof.
  intros Hurl. revert s. induction lines as [|line rest IH]; intros s; [done|].
  cbn [main_loop].
  destruct (main_step_dispatch line s) as [_ Hstep]. specialize (Hstep Hurl).
  destruct (main_step cfg env line s) as [s'|e s']; cbn [final] in *.
  - destruct (IH s') as [-> ->]. exact Hstep.
  - exact Hstep.
Qed.

(** X11. The only keys that a run of the loop adds to the cooldown table
    are [failover] and [error_rate]. *)
Theorem cooldown_table_keys (lines : list string) (s : State) (k : string) :
  is_Some (last_alert_time (final (main_loop cfg env lines s)) !! k) ->
  is_Some (last_alert_time s !! k) \/ k = "failover" \/ k = "error_rate".
Proof.
  revert s. induction lines as [|line rest IH]; intros s; [by left|].
  cbn [main_loop].
  destruct (main_step_dispatch line s) as [Hstep _].
  destruct (main_step cfg env line s) as [s'|e s']; cbn [final] in *.
  - intros Hk. destruct (IH s' Hk) as [Hk'|]; [|by right]. by apply Hstep.
  - cbn [print last_alert_time]. apply Hstep.
Qed.

End LoopDispatch.

(** ** The line source and the parser *)

Lemma rstrip_decomp s :
  exists ws : string,
    s = (rstrip s ++ ws)%string /\ all_chars Regex.is_space ws = true.
Proof.
  induction s as [|c s (ws & Hs & Hws)]; [by exists EmptyString|].
  cbn [rstrip]. destruct (rstrip s) as [|k kept] eqn:E.
  - destruct (Regex.is_space c) eqn:Hc.
    + exists (String c ws). split; [by rewrite Hs at 1|].
      cbn [all_chars]. by rewrite Hc.
    + exists ws. by rewrite Hs at 1.
  - exists ws. by rewrite Hs at 1.
Qed.

Lemma lstrip_decomp s :
  exists ws : string,
    s = (ws ++ lstrip s)%string /\ all_chars Regex.is_space ws = true.
Proof.
  induction s as [|c s (ws & Hs & Hws)]; [by exists EmptyString|].
  cbn [lstrip]. destruct (Regex.is_space c) eqn:Hc.
  - exists (String c ws). split.
    + change (String c s = String c (ws ++ lstrip s)%string). by rewrite <- Hs.
    + cbn [all_chars]. by rewrite Hc.
  - by exists EmptyString.
Qed.

Lemma lstrip_head s : head_in Regex.is_space (lstrip s) = false.
Proof.
  induction s as [|c s IH]; [reflexivity|]. cbn [lstrip].
  destruct (Regex.is_space c) eqn:Hc; [exact IH|]. exact Hc.
Qed.

Lemma rstrip_last s : last_in Regex.is_space (rstrip s) = false.
Proof.
  induction s as [|c s IH]; [reflexivity|]. cbn [rstrip].
  destruct (rstrip s) as [|k kept].
  - destruct (Regex.is_space c) eqn:Hc; [reflexivity|]. exact Hc.
  - exact IH.
Qed.

Lemma last_in_lstrip p s : last_in p s = false -> last_in p (lstrip s) = false.
Proof.
  induction s as [|c s IH]; [done|]. cbn [lstrip].
  destruct (Regex.is_space c); [|done].
  intros H. apply IH. destruct s as [|d s]; [reflexivity|exact H].
Qed.

(** A yielded line neither starts nor ends with whitespace. *)
Lemma strip_ends s :
  head_in Regex.is_space (strip s) = false /\
  last_in Regex.is_space (strip s) = false.
Proof.
  unfold strip. split; [apply lstrip_head|].
  apply last_in_lstrip, rstrip_last.
Qed.

Lemma strip_prefix_spaces key ws :
  key <> EmptyString -> space_free key = true ->
  all_chars Regex.is_space ws = true ->
  Regex.strip_prefix key ws = None.
Proof.
  destruct key as [|k key]; [done|]. intros _ Hk Hws.
  destruct ws as [|w ws]; [reflexivity|].
  cbn [Regex.strip_prefix space_free all_chars] in *.
  apply andb_prop in Hk as [Hk _]. apply andb_prop in Hws as [Hw _].
  destruct (Ascii.eqb_spec k w) as [->|]; [|reflexivity].
  rewrite Hw in Hk. discriminate.
Qed.

Lemma strip_prefix_trailing key t ws :
  space_free key = true -> all_chars Regex.is_space ws = true ->
  Regex.strip_prefix key (t ++ ws)%string =
  match key with
  | EmptyString => Some (t ++ ws)%string
  | _ => (fun rest => (rest ++ ws)%string) <$> Regex.strip_prefix key t
  end.
Proof.
  intros Hk Hws. revert t. induction key as [|k key IH]; intros t; [reflexivity|].
  destruct t as [|c t].
  - change ((EmptyString ++ ws)%string) with ws.
    by rewrite strip_prefix_spaces.
  - change ((String c t ++ ws)%string) with (String c (t ++ ws)%string).
    cbn [Regex.strip_prefix].
    destruct (Ascii.eqb k c); [|reflexivity].
    cbn [space_free all_chars] in Hk. apply andb_prop in Hk as [_ Hk].
    rewrite (IH Hk). destruct key; [|reflexivity].
    destruct t; reflexivity.
Qed.

Lemma span_trailing cls rest ws :
  class_space_free cls -> all_chars Regex.is_space ws = true ->
  fst (Regex.span cls (rest ++ ws)%string) = fst (Regex.span cls rest).
Proof.
  intros Hcls Hws. induction rest as [|c rest IH].
  - change ((EmptyString ++ ws)%string) with ws.
    destruct ws as [|w ws]; [reflexivity|].
    cbn [all_chars] in Hws. apply andb_prop in Hws as [Hw _].
    cbn [Regex.span]. destruct (cls w) eqn:E; [|reflexivity].
    rewrite (Hcls w E) in Hw. discriminate.
  - change ((String c rest ++ ws)%string) with (String c (rest ++ ws)%string).
    cbn [Regex.span]. destruct (cls c); [|reflexivity].
    destruct (Regex.span cls (rest ++ ws)%string) as [r1 t1].
    destruct (Regex.span cls rest) as [r2 t2]. cbn [fst] in *. by rewrite IH.
Qed.

Lemma match_key_trailing key cls t ws :
  key <> EmptyString -> space_free key = true -> class_space_free cls ->
  all_chars Regex.is_space ws = true ->
  Regex.match_key key cls (t ++ ws)%string = Regex.match_key key cls t.
Proof.
  intros Hne Hk Hcls Hws. unfold Regex.match_key.
  rewrite (strip_prefix_trailing key t ws Hk Hws).
  destruct key as [|k key]; [done|].
  destruct (Regex.strip_prefix (String k key) t) as [rest|]; [|reflexivity].
  cbn [fmap option_fmap option_map]. by rewrite span_trailing.
Qed.

Lemma search_spaces key cls ws :
  key <> EmptyString -> space_free key = true ->
  all_chars Regex.is_space ws = true ->
  Regex.search (Regex.match_key key cls) ws = None.
Proof.
  intros Hne Hk. induction ws as [|w ws IH]; intros Hws.
  - cbn [Regex.search]. unfold Regex.match_key.
    by rewrite strip_prefix_spaces.
  - cbn [Regex.search]. unfold Regex.match_key at 1.
    rewrite strip_prefix_spaces by done.
    cbn [all_chars] in Hws. apply andb_prop in Hws as [_ Hws]. by apply IH.
Qed.

Lemma search_trailing key cls t ws :
  key <> EmptyString -> space_free key = true -> class_space_free cls ->
  all_chars Regex.is_space ws = true ->
  Regex.search (Regex.match_key key cls) (t ++ ws)%string =
  Regex.search (Regex.match_key key cls) t.
Proof.
  intros Hne Hk Hcls Hws. induction t as [|c t IH].
  - change ((EmptyString ++ ws)%string) with ws.
    rewrite search_spaces by done. cbn [Regex.search].
    unfold Regex.match_key. by rewrite strip_prefix_spaces.
  - pose proof (match_key_trailing key cls (String c t) ws Hne Hk Hcls Hws) as Hm.
    change ((String c t ++ ws)%string) with (String c (t ++ ws)%string) in *.
    cbn [Regex.search]. rewrite Hm.
    destruct (Regex.match_key key cls (String c t)); [reflexivity|exact IH].
Qed.

Lemma search_leading key cls ws t :
  key <> EmptyString -> space_free key = true ->
  all_chars Regex.is_space ws = true ->
  Regex.search (Regex.match_key key cls) (ws ++ t)%string =
  Regex.search (Regex.match_key key cls) t.
Proof.
  intros Hne Hk. induction ws as [|w ws IH]; intros Hws; [reflexivity|].
  change ((String w ws ++ t)%string) with (String w (ws ++ t)%string).
  cbn [Regex.search]. cbn [all_chars] in Hws.
  apply andb_prop in Hws as [Hw Hws].
  assert (Hm : Regex.match_key key cls (String w (ws ++ t)%string) = None).
  { unfold Regex.match_key. destruct key as [|k key]; [done|].
    cbn [Regex.strip_prefix]. cbn [space_free all_chars] in Hk.
    apply andb_prop in Hk as [Hk0 _].
    destruct (Ascii.eqb_spec k w) as [->|]; [|reflexivity].
    rewrite Hw in Hk0. discriminate. }
  rewrite Hm. by apply IH.
Qed.

Lemma search_strip key cls s :
  key <> EmptyString -> space_free key = true -> class_space_free cls ->
  Regex.search (Regex.match_key key cls) (strip s) =
  Regex.search (Regex.match_key key cls) s.
Proof.
  intros Hne Hk Hcls. unfold strip.
  destruct (rstrip_decomp s) as (ws2 & Hs & Hws2).
  destruct (lstrip_decomp (rstrip s)) as (ws1 & Hr & Hws1).
  rewrite Hs at 2. rewrite search_trailing by done.
  rewrite Hr at 2. by rewrite search_leading.
Qed.

Lemma classes_space_free :
  class_space_free Regex.is_word /\ class_space_free Regex.is_release_char /\
  class_space_free Regex.is_digit /\ class_space_free Regex.is_addr_char /\
  class_space_free Regex.is_time_char.
Proof.
  repeat split; intros c;
    destruct c as [[|] [|] [|] [|] [|] [|] [|] [|]]; vm_compute; congruence.
Qed.

(** X12. Stripping a line, as the line source does before it yields it,
    changes none of the six [key=value] fields and not whether the parser
    raises: of the parsed event only the client status can differ. *)
Theorem strip_keeps_key_value_fields (raw : string) :
  parse_log_line (strip raw) =
  match parse_log_line raw with
  | Ok data =>
      Ok (with_status
            (py_int <$> Regex.search Regex.match_status (strip raw)) data)
  | Raise e => Raise e
  end.
Proof.
  destruct classes_space_free as (Hw & Hr & Hd & Ha & Ht).
  unfold parse_log_line. cbv zeta.
  rewrite !search_strip by done.
  destruct (float_field
              (Regex.search (Regex.match_key "request_time=" _) raw))
    as [rt|e1]; cbn [rbind]; [|reflexivity].
  destruct (float_field
              (Regex.search (Regex.match_key "upstream_time=" _) raw))
    as [ut|e2]; cbn [rbind]; reflexivity.
Qed.

Lemma string_app_assoc (a b c : string) :
  ((a ++ b) ++ c)%string = (a ++ b ++ c)%string.
Proof.
  induction a as [|x a IH]; [reflexivity|].
  change (String x ((a ++ b) ++ c)%string = String x (a ++ b ++ c)%string).
  by rewrite IH.
Qed.

Lemma last_in_app_single p a d : last_in p (a ++ String d EmptyString)%string = p d.
Proof.
  induction a as [|c a IH]; [reflexivity|].
  change ((String c a ++ String d EmptyString)%string)
    with (String c (a ++ String d EmptyString)%string).
  cbn [last_in]. rewrite IH.
  destruct (a ++ String d EmptyString)%string eqn:E; [|reflexivity].
  by destruct a.
Qed.

Lemma match_status_shape s g :
  Regex.match_status s = Some g ->
  exists pre d post,
    s = (pre ++ g ++ String d post)%string /\ Regex.is_space d = true.
Proof.
  unfold Regex.match_status. destruct s as [|q rest]; [discriminate|].
  destruct (Regex.is_dquote q); [|discriminate].
  pose proof (span_app Regex.is_space rest) as Happ.
  destruct (Regex.span Regex.is_space rest)
    as [[|w ws] [|a [|b [|c [|d tl]]]]]; try discriminate.
  destruct (Regex.is_digit a); [|discriminate].
  destruct (Regex.is_digit b); [|discriminate].
  destruct (Regex.is_digit c); [|discriminate].
  destruct (Regex.is_space d) eqn:Hd; [|discriminate].
  intros [= <-]. cbn [fst snd] in Happ.
  exists (String q (String w ws)), d, tl. split; [|exact Hd].
  rewrite Happ. reflexivity.
Qed.

(** X13. In a yielded (stripped) line a client status is extracted only
    when more text follows it after whitespace: a status code that ends
    the line is not extracted. *)
Theorem stripped_status_needs_text_after
    (raw : string) (data : RequestEvent) (n : Z) :
  parse_log_line (strip raw) = Ok data -> status data = Some n ->
  exists (pre g : string) (d : ascii) (post : string),
    strip raw = (pre ++ g ++ String d post)%string /\
    py_int g = n /\ Regex.is_space d = true /\ post <> EmptyString.
Proof.
  intros Hparse Hn.
  destruct (parse_log_line_fields _ _ Hparse) as (_ & _ & _ & _ & _ & _ & Hst).
  rewrite Hst in Hn.
  destruct (Regex.search Regex.match_status (strip raw)) as [g|] eqn:E;
    [|discriminate].
  injection Hn as <-.
  destruct (search_some _ _ _ E) as (skipped & rest & Hline & Hm).
  destruct (match_status_shape _ _ Hm) as (pre & d & post & -> & Hd).
  exists (skipped ++ pre)%string, g, d, post.
  split; [|split; [reflexivity|split; [exact Hd|]]].
  - rewrite Hline. by rewrite string_app_assoc.
  - intros ->. destruct (strip_ends raw) as [_ Hlast].
    rewrite Hline in Hlast.
    replace (skipped ++ pre ++ g ++ String d EmptyString)%string
      with ((skipped ++ pre ++ g) ++ String d EmptyString)%string in Hlast
      by (by rewrite !string_app_assoc).
    rewrite last_in_app_single in Hlast. congruence.
Qed.

(** ** Posts and printed alerts *)

Section PostsAreAlerts.

Variable cfg : Config.
Variable env : Env.

Lemma alerts_snoc out p :
  alerts (out ++ [p]) =
  alerts out ++ match alert_of p with Some m => [m] | None => [] end.
Proof.
  unfold alerts. rewrite omap_app. reflexivity.
Qed.

Lemma alerts_snoc_other out p :
  alert_of p = None -> alerts (out ++ [p]) = alerts out.
Proof. intros H. rewrite alerts_snoc, H. apply app_nil_r. Qed.

Lemma try_post_alerts t c m s :
  alerts (output (try_post env t c m s)) = alerts (output s).
Proof.
  unfold try_post, post. cbv beta iota zeta.
  destruct (webhook env (length (posted s))) as [code|];
    [destruct (code =? 200)|];
    cbn [output print set_last_alert_time]; by apply alerts_snoc_other.
Qed.

Lemma send_slack_alert_alerts m c s :
  alerts (output (send_slack_alert cfg env m c s)) = alerts (output s).
Proof.
  destruct (send_slack_alert_cases cfg env m c s) as [-> | [-> | [[r ->] | ->]]].
  - by apply alerts_snoc_other.
  - by apply alerts_snoc_other.
  - unfold print, now_state, now. cbn [output snd]. by apply alerts_snoc_other.
  - exact (try_post_alerts _ c m (now_state env s)).
Qed.

(** Raising the alert [m] from a state where the posts are among the
    alerts: print it, then dispatch it. *)
Lemma raise_alert_sublist m c s0 s :
  posted s0 = posted s -> output s0 = output s ->
  posted s `sublist_of` alerts (output s) ->
  posted (send_slack_alert cfg env m c (print (PAlert m) s0))
    `sublist_of`
  alerts (output (send_slack_alert cfg env m c (print (PAlert m) s0))).
Proof.
  intros Hp Ho Hs. rewrite send_slack_alert_alerts.
  unfold print at 2. cbn [output]. rewrite alerts_snoc. cbn [alert_of].
  rewrite Ho.
  destruct (send_slack_alert_posted_cases cfg env m c (print (PAlert m) s0))
    as [[-> _]|(_ & _ & _ & ->)]; cbn [print posted]; rewrite Hp.
  - by apply sublist_inserts_r.
  - by apply sublist_app.
Qed.

Lemma main_step_posts_are_alerts line s :
  posted s `sublist_of` alerts (output s) ->
  posted (final (main_step cfg env line s))
    `sublist_of` alerts (output (final (main_step cfg env line s))).
Proof.
  intros Hs. unfold main_step.
  destruct (parse_log_line line) as [data|e]; [|done].
  set (s1 := track_request cfg data s).
  assert (H1 : posted s1 `sublist_of` alerts (output s1)).
  { unfold s1, track_request. destruct (truthy_int _); [|done].
    by destruct (upstream_status data). }
  set (s2 := track_pool cfg env data s1).
  assert (H2 : posted s2 `sublist_of` alerts (output s2)).
  { unfold s2, track_pool. destruct (truthy_str (pool data)); [|done].
    unfold detect_failover.
    destruct (pool data) as [[|a p]|]; try done.
    destruct (last_pool s1) as [previous|].
    - destruct (negb _); [|done].
      unfold now. cbv beta iota zeta. cbn [set_last_pool posted output].
      by apply (raise_alert_sublist _ _ _ s1).
    - unfold print, set_last_pool. cbn [posted output].
      by rewrite alerts_snoc_other. }
  assert (H3 : posted (final (track_error_rate cfg env s2))
               `sublist_of`
               alerts (output (final (track_error_rate cfg env s2)))).
  { unfold track_error_rate. destruct (_ <=? _); [|done].
    unfold check_error_rate.
    destruct (_ <? _); [done|].
    destruct (WINDOW_SIZE cfg =? 0); [done|].
    cbv zeta. destruct (PrimFloat.ltb _ _); [|done].
    unfold now. cbv beta iota. cbn [final].
    by apply (raise_alert_sublist _ _ _ s2). }
  destruct (track_error_rate cfg env s2) as [s3|e s3]; cbn [final] in *;
    [|exact H3].
  unfold debug_output. destruct (_ =? _); [|exact H3].
  unfold print. cbn [posted output]. by rewrite alerts_snoc_other.
Qed.

(** X14. Every message posted to the webhook is an alert that was printed
    first, and in the same order: from process start the list of posts is
    always a sublist of the list of printed alerts. *)
Theorem posts_are_printed_alerts (lines : list string) (s : State) :
  posted s `sublist_of` alerts (output s) ->
  posted (final (main_loop cfg env lines s))
    `sublist_of` alerts (output (final (main_loop cfg env lines s))).
Proof.
  revert s. induction lines as [|line rest IH]; intros s Hs; [done|].
  cbn [main_loop]. pose proof (main_step_posts_are_alerts line s Hs) as H1.
  destruct (main_step cfg env line s) as [s'|e s']; cbn [final] in *.
  - by apply IH.
  - unfold print. cbn [posted output]. by rewrite alerts_snoc_other.
Qed.

End PostsAreAlerts.

Lemma posts_are_printed_alerts_witness :
  posted (final (main_loop default_cfg (env_ok 400)
                   ["pool=blue"; "pool=green"; "pool=blue"] initial_state))
    `sublist_of`
  alerts (output (final (main_loop default_cfg (env_ok 400)
                           ["pool=blue"; "pool=green"; "pool=blue"]
                           initial_state))).
Proof.
  apply (posts_are_printed_alerts default_cfg (env_ok 400)
           ["pool=blue"; "pool=green"; "pool=blue"] initial_state).
  apply sublist_nil.
Defined.

(** ** The lines that the source yields *)

Lemma rstrip_spaces s : all_chars Regex.is_space s = true -> rstrip s = EmptyString.
Proof.
  induction s as [|c s IH]; [done|]. cbn [all_chars rstrip]. intros H.
  apply andb_prop in H as [Hc Hs]. by rewrite (IH Hs), Hc.
Qed.

Lemma tail_yield_some read line :
  tail_yield read = Some line <-> read <> EmptyString /\ line = strip read.
Proof.
  unfold tail_yield. destruct read as [|c r].
  - split; [discriminate | by intros [? _]].
  - split; [by intros [= <-] | by intros [_ ->]].
Qed.

(** X15. The line source yields one line for each non-empty read, in
    order; no yielded line starts or ends with whitespace; and a read made
    only of whitespace, such as a blank line of the log, is yielded as the
    empty line rather than dropped. *)
Theorem tail_log_file_yields (reads : list string) :
  tail_log_file reads =
    strip <$> filter (fun r => r <> EmptyString) reads /\
  Forall (fun line => head_in Regex.is_space line = false /\
                      last_in Regex.is_space line = false)
         (tail_log_file reads) /\
  (forall r : string,
     r ∈ reads -> r <> EmptyString -> all_chars Regex.is_space r = true ->
     EmptyString ∈ tail_log_file reads).
Proof.
  assert (Heq : tail_log_file reads =
                strip <$> filter (fun r => r <> EmptyString) reads).
  { unfold tail_log_file. induction reads as [|r reads IH]; [reflexivity|].
    cbn [omap list_omap]. fold (omap tail_yield reads). rewrite IH.
    destruct r as [|c r].
    - rewrite filter_cons_False by (intros H; by apply H). reflexivity.
    - rewrite filter_cons_True by done. reflexivity. }
  split; [exact Heq|]. split.
  - rewrite Heq. apply Forall_fmap, Forall_forall. intros r _.
    apply strip_ends.
  - intros r Hin Hne Hsp. unfold tail_log_file. apply list_elem_of_omap.
    exists r. split; [exact Hin|]. apply tail_yield_some. split; [exact Hne|].
    unfold strip. by rewrite (rstrip_spaces r Hsp).
Qed.

(** ** When a line raises the high-error-rate alert *)

Section ErrorRatePerLine.

Variable cfg : Config.
Variable env : Env.

(** X16. Once the request counter has reached the window size, every line
    that parses, with or without an upstream status, raises the
    high-error-rate alert when the rate of the window exceeds the
    threshold, and no line raises it otherwise. *)
Theorem error_rate_alert_on_every_line
    (line : string) (data : RequestEvent) (s : State) :
  0 < WINDOW_SIZE cfg -> counted cfg s ->
  parse_log_line line = Ok data ->
  let s1 := track_request cfg data s in
  error_rate_alerts (output (final (main_step cfg env line s))) =
  error_rate_alerts (output s) ++
  if (WINDOW_SIZE cfg <=? request_count s1) &&
     PrimFloat.ltb (ERROR_RATE_THRESHOLD cfg)
       (error_rate_of (count_5xx (request_window s1)) (WINDOW_SIZE cfg))
  then [(count_5xx (request_window s1), WINDOW_SIZE cfg)]
  else [].
Proof.
  intros HW Hs Hparse. cbv zeta. unfold main_step. rewrite Hparse. cbv zeta.
  pose proof (track_request_counted cfg data s (Z.lt_le_incl _ _ HW) Hs)
    as [Hc1 Hl1].
  set (s1 := track_request cfg data s) in *.
  assert (O1 : output s1 = output s).
  { unfold s1, track_request. destruct (truthy_int _); [|done].
    by destruct (upstream_status data). }
  set (s2 := track_pool cfg env data s1).
  assert (O2 : error_rate_alerts (output s2) = error_rate_alerts (output s)).
  { rewrite <- O1. unfold s2, track_pool. destruct (truthy_str _); [|done].
    apply detect_failover_error_rate_alerts. }
  assert (F2 : request_window s2 = request_window s1 /\
               request_count s2 = request_count s1).
  { unfold s2, track_pool. destruct (truthy_str _); [|done].
    apply (detect_failover_frame cfg env). }
  destruct F2 as [W2 C2].
  assert (D : forall s3, error_rate_alerts (output (debug_output data s3)) =
                         error_rate_alerts (output s3)).
  { intros s3. unfold debug_output. destruct (_ =? _); [|done].
    unfold print. cbn [output]. by apply error_rate_alerts_snoc. }
  unfold track_error_rate. rewrite C2.
  destruct (Z.leb_spec (WINDOW_SIZE cfg) (request_count s1)) as [Hge|Hlt];
    cbn [andb final].
  - rewrite check_error_rate_saturated by (rewrite ?W2; lia).
    rewrite W2.
    destruct (PrimFloat.ltb _ _); cbn [final].
    + rewrite D, send_slack_alert_error_rate_alerts.
      unfold print at 1. cbn [output]. unfold now_state, now. cbn [snd output].
      unfold error_rate_alerts at 1. rewrite omap_app.
      fold (error_rate_alerts (output s2)). rewrite O2.
      unfold error_rate_message. rewrite W2. reflexivity.
    + rewrite D, O2. by rewrite app_nil_r.
  - rewrite D, O2. by rewrite app_nil_r.
Qed.

End ErrorRatePerLine.

Lemma error_rate_alert_on_every_line_witness :
  error_rate_alerts
    (output (final (main_step default_cfg (env_ok 1) ""
                      (window_state (window_of 195 5))))) = [(5, 200)].
Proof.
  rewrite (error_rate_alert_on_every_line default_cfg (env_ok 1) ""
             empty_event (window_state (window_of 195 5))).
  - cbn [window_state initial_state set_request_count set_request_window
           output app].
    replace (track_request default_cfg empty_event
               (window_state (window_of 195 5)))
      with (window_state (window_of 195 5)) by reflexivity.
    change (request_window (window_state (window_of 195 5)))
      with (window_of 195 5).
    rewrite window_of_count.
    replace (WINDOW_SIZE default_cfg <=?
             request_count (window_state (window_of 195 5)))
      with true by (vm_compute; reflexivity).
    replace (PrimFloat.ltb _ _) with true by (vm_compute; reflexivity).
    reflexivity.
  - reflexivity.
  - unfold counted. change (request_window (window_state (window_of 195 5)))
      with (window_of 195 5).
    rewrite window_of_length. vm_compute. split; [discriminate|reflexivity].
  - vm_compute. reflexivity.
Defined.

(** ** Worked instances of the further properties *)


Lemma parsed_status_ranges_witness : 0 <= 404 <= 999.
Proof.
  destruct (parsed_status_ranges raw_line_404 event_404_blue) as [Hst _].
  - vm_compute. reflexivity.
  - apply (Hst 404). reflexivity.
Defined.

Lemma window_follows_counter_witness :
  let s := final (main_loop default_cfg (env_ok 1)
                    ["upstream_status=200"; "pool=blue"; "upstream_status=503"]
                    initial_state) in
  Z.of_nat (length (request_window s)) = Z.min (request_count s) 200.
Proof.
  cbv zeta.
  destruct (window_follows_counter default_cfg (env_ok 1)
              ["upstream_status=200"; "pool=blue"; "upstream_status=503"]
              initial_state) as (_ & H & _).
  - reflexivity.
  - exact H.
Defined.

Lemma zero_window_size_raises_witness :
  exists s' : State,
    main_step zero_window_cfg (env_ok 1) "pool=blue" initial_state =
    Raised ZeroDivisionError s'.
Proof.
  destruct (zero_window_size_raises zero_window_cfg (env_ok 1) "pool=blue"
              (event_with_pool "blue") initial_state) as (s' & Hstep & _).
  - reflexivity.
  - cbn [initial_state request_count]. lia.
  - vm_compute. reflexivity.
  - by exists s'.
Defined.

Lemma last_pool_is_latest_label_witness :
  last_pool (final (main_loop default_cfg (env_ok 1)
                      ["pool=blue"; "upstream_status=200"; "pool=green"; ""]
                      initial_state)) = Some "green".
Proof.
  rewrite (last_pool_is_latest_label default_cfg (env_ok 1)
             ["pool=blue"; "upstream_status=200"; "pool=green"; ""]
             initial_state
             (final (main_loop default_cfg (env_ok 1)
                       ["pool=blue"; "upstream_status=200"; "pool=green"; ""]
                       initial_state))).
  - vm_compute. reflexivity.
  - vm_compute. reflexivity.
Defined.

Lemma no_webhook_no_post_witness :
  posted (final (main_loop no_webhook_cfg (env_ok 1)
                   ["pool=blue"; "pool=green"] initial_state)) = [].
Proof.
  apply (no_webhook_no_post no_webhook_cfg (env_ok 1)
           ["pool=blue"; "pool=green"] initial_state).
  reflexivity.
Defined.

Lemma cooldown_table_keys_witness :
  is_Some (last_alert_time initial_state !! "failover") \/
  "failover" = "failover" \/ "failover" = "error_rate".
Proof.
  apply (cooldown_table_keys default_cfg (env_ok 1)
           ["pool=blue"; "pool=green"] initial_state "failover").
  vm_compute. by eexists.
Defined.

Lemma stripped_status_needs_text_after_witness :
  exists (pre g : string) (d : ascii) (post : string),
    strip raw_line_404 = (pre ++ g ++ String d post)%string /\
    py_int g = 404 /\ Regex.is_space d = true /\ post <> EmptyString.
Proof.
  apply (stripped_status_needs_text_after raw_line_404 event_404_blue 404).
  - vm_compute. reflexivity.
  - reflexivity.
Defined.
